(** * Indexer core of the cosmos-sdk fork: value kinds, sync guard, manager

    A shallow embedding of
    - [indexer/base/kind.go]   (package [indexerbase]): the value kinds,
    - [schema/indexer/sync.go] (package [indexer]): the sync and sanity guard,
    - the manager file of package [indexer] ([StartManager], [unmarshalConfig]),
    and the properties of these functions that the specification states. *)

From Stdlib Require Import ZArith Bool List String Ascii Lia DecimalString.
Import ListNotations.
Open Scope string_scope.
Open Scope Z_scope.

(** ** Go runtime notions shared by both packages *)

(** A Go [error]: [None] is [nil], [Some msg] an error whose [Error()] text is
    [msg]. *)
Definition error : Type := option string.

(** The [%d] verb of [fmt] on an integer: its decimal numeral, with a leading
    minus sign for a negative one. *)
Definition fmt_d (z : Z) : string := NilZero.string_of_int (Z.to_int z).

(** [m] occurs in [s] as a contiguous piece. *)
Definition includes (s m : string) : Prop :=
  exists pre post : string, s = pre ++ m ++ post.

Module indexerbase.

(** *** Dynamic types of the values handed to the kind functions

    The functions of [kind.go] take a value of type [any] and look only at its
    dynamic type, through type assertions and one type switch.  The types they
    name are listed one by one; every other type is [TNamed], with the name
    [%T] prints for it and whether its method set has [String() string]
    (that is, whether it implements [fmt.Stringer]). *)
Inductive GoType : Type :=
| TString | TBytes
| TInt8 | TUint8 | TInt16 | TUint16 | TInt32 | TUint32 | TInt64 | TUint64
| TFloat32 | TFloat64 | TBool
| TTime | TDuration | TRawMessage
| TNamed (name : string) (hasStringMethod : bool).

(** An interface value: [nil], or a dynamic type paired with its data (kept
    as the bytes of the value; no function of [kind.go] reads them). *)
Inductive any : Type :=
| nil_any
| Iface (ty : GoType) (data : string).

Definition typeOf (value : any) : option GoType :=
  match value with
  | nil_any => None
  | Iface ty _ => Some ty
  end.

(** [fmt.Stringer] is implemented by [time.Time] and [time.Duration] (both
    declare [String() string] on the value receiver), by no other type that
    [kind.go] names ([json.RawMessage] has [MarshalJSON] and [UnmarshalJSON]
    only), and by a [TNamed] type as its flag says. *)
Definition implementsStringer (ty : GoType) : bool :=
  match ty with
  | TTime | TDuration => true
  | TNamed _ b => b
  | _ => false
  end.

Definition GoType_eqb (a b : GoType) : bool :=
  match a, b with
  | TString, TString | TBytes, TBytes
  | TInt8, TInt8 | TUint8, TUint8 | TInt16, TInt16 | TUint16, TUint16
  | TInt32, TInt32 | TUint32, TUint32 | TInt64, TInt64 | TUint64, TUint64
  | TFloat32, TFloat32 | TFloat64, TFloat64 | TBool, TBool
  | TTime, TTime | TDuration, TDuration | TRawMessage, TRawMessage => true
  | TNamed n s, TNamed n' s' => String.eqb n n' && Bool.eqb s s'
  | _, _ => false
  end.

(** [_, ok := value.(T)] for a concrete type [T]: the dynamic type is [T]. *)
Definition assertType (value : any) (T : GoType) : bool :=
  match value with
  | nil_any => false
  | Iface ty _ => GoType_eqb ty T
  end.

(** [_, ok := value.(fmt.Stringer)]: a non-nil value whose type implements
    the interface. *)
Definition assertStringer (value : any) : bool :=
  match value with
  | nil_any => false
  | Iface ty _ => implementsStringer ty
  end.

(** The [%T] verb. *)
Definition fmt_T (value : any) : string :=
  match value with
  | nil_any => "<nil>"
  | Iface ty _ =>
      match ty with
      | TString => "string" | TBytes => "[]uint8"
      | TInt8 => "int8" | TUint8 => "uint8" | TInt16 => "int16"
      | TUint16 => "uint16" | TInt32 => "int32" | TUint32 => "uint32"
      | TInt64 => "int64" | TUint64 => "uint64"
      | TFloat32 => "float32" | TFloat64 => "float64" | TBool => "bool"
      | TTime => "time.Time" | TDuration => "time.Duration"
      | TRawMessage => "json.RawMessage"
      | TNamed name _ => name
      end
  end.

(** *** [type Kind int] and its constants ([iota] from [InvalidKind]) *)
Definition Kind : Type := Z.

Definition InvalidKind : Kind := 0.
Definition StringKind : Kind := 1.
Definition BytesKind : Kind := 2.
Definition Int8Kind : Kind := 3.
Definition Uint8Kind : Kind := 4.
Definition Int16Kind : Kind := 5.
Definition Uint16Kind : Kind := 6.
Definition Int32Kind : Kind := 7.
Definition Uint32Kind : Kind := 8.
Definition Int64Kind : Kind := 9.
Definition Uint64Kind : Kind := 10.
Definition IntegerKind : Kind := 11.
Definition DecimalKind : Kind := 12.
Definition BoolKind : Kind := 13.
Definition TimeKind : Kind := 14.
Definition DurationKind : Kind := 15.
Definition Float32Kind : Kind := 16.
Definition Float64Kind : Kind := 17.
Definition Bech32AddressKind : Kind := 18.
Definition EnumKind : Kind := 19.
Definition JSONKind : Kind := 20.

(** [func (t Kind) Validate() error] *)
Definition Validate (t : Kind) : error :=
  if t <=? InvalidKind then Some ("unknown type: " ++ fmt_d t)
  else if t >? JSONKind then Some ("invalid type: " ++ fmt_d t)
  else None.

(** The one-assertion cases of [ValidateValueType]:
    [_, ok := value.(T); if !ok { return fmt.Errorf("expected <T>, got %T", value) }]. *)
Definition expectExactly (T : GoType) (shown : string) (value : any) : error :=
  if negb (assertType value T)
  then Some ("expected " ++ shown ++ ", got " ++ fmt_T value)
  else None.

Definition stringOrStringerMsg (value : any) : string :=
  "expected string or type that implements fmt.Stringer, got " ++ fmt_T value.

(** [func (t Kind) ValidateValueType(value any) error] *)
Definition ValidateValueType (t : Kind) (value : any) : error :=
  if t =? StringKind then
    let ok := assertType value TString in
    let ok2 := assertStringer value in
    if negb ok && negb ok2 then Some (stringOrStringerMsg value) else None
  else if t =? BytesKind then expectExactly TBytes "[]byte" value
  else if t =? Int8Kind then expectExactly TInt8 "int8" value
  else if t =? Uint8Kind then expectExactly TUint8 "uint8" value
  else if t =? Int16Kind then expectExactly TInt16 "int16" value
  else if t =? Uint16Kind then expectExactly TUint16 "uint16" value
  else if t =? Int32Kind then expectExactly TInt32 "int32" value
  else if t =? Uint32Kind then expectExactly TUint32 "uint32" value
  else if t =? Int64Kind then expectExactly TInt64 "int64" value
  else if t =? Uint64Kind then expectExactly TUint64 "uint64" value
  else if t =? IntegerKind then
    let ok := assertType value TString in
    let ok2 := assertStringer value in
    let ok3 := assertType value TInt64 in
    if negb ok && negb ok2 && negb ok3 then Some (stringOrStringerMsg value)
    else None
  else if t =? DecimalKind then
    let ok := assertType value TString in
    let ok2 := assertStringer value in
    if negb ok && negb ok2 then Some (stringOrStringerMsg value) else None
  else if t =? BoolKind then expectExactly TBool "bool" value
  else if t =? TimeKind then expectExactly TTime "time.Time" value
  else if t =? DurationKind then expectExactly TDuration "time.Duration" value
  else if t =? Float32Kind then expectExactly TFloat32 "float32" value
  else if t =? Float64Kind then expectExactly TFloat64 "float64" value
  else if t =? Bech32AddressKind then
    let ok := assertType value TString in
    let ok2 := assertType value TBytes in
    let ok3 := assertStringer value in
    if negb ok && negb ok2 && negb ok3
    then Some ("expected string or []byte, got " ++ fmt_T value)
    else None
  else if t =? EnumKind then
    let ok := assertType value TString in
    let ok2 := assertStringer value in
    if negb ok && negb ok2 then Some (stringOrStringerMsg value) else None
  else if t =? JSONKind then None
  else Some ("invalid type: " ++ fmt_d t).

(** [func KindForGoValue(value any) Kind]: a type switch, whose cases are
    tried from the top; [case string, fmt.Stringer] comes first. *)
Definition KindForGoValue (value : any) : Kind :=
  if assertType value TString || assertStringer value then StringKind
  else if assertType value TBytes then BytesKind
  else if assertType value TInt8 then Int8Kind
  else if assertType value TUint8 then Uint8Kind
  else if assertType value TInt16 then Int16Kind
  else if assertType value TUint16 then Uint16Kind
  else if assertType value TInt32 then Int32Kind
  else if assertType value TUint32 then Uint32Kind
  else if assertType value TInt64 then Int64Kind
  else if assertType value TUint64 then Uint64Kind
  else if assertType value TFloat32 then Float32Kind
  else if assertType value TFloat64 then Float64Kind
  else if assertType value TBool then BoolKind
  else if assertType value TTime then TimeKind
  else if assertType value TDuration then DurationKind
  else if assertType value TRawMessage then JSONKind
  else JSONKind.

(** [func (t Kind) String() string]; the cases in the order of the source
    ([DecimalKind] before [IntegerKind]). *)
Definition Kind_String (t : Kind) : string :=
  if t =? StringKind then "string"
  else if t =? BytesKind then "bytes"
  else if t =? Int8Kind then "int8"
  else if t =? Uint8Kind then "uint8"
  else if t =? Int16Kind then "int16"
  else if t =? Uint16Kind then "uint16"
  else if t =? Int32Kind then "int32"
  else if t =? Uint32Kind then "uint32"
  else if t =? Int64Kind then "int64"
  else if t =? Uint64Kind then "uint64"
  else if t =? DecimalKind then "decimal"
  else if t =? IntegerKind then "integer"
  else if t =? BoolKind then "bool"
  else if t =? TimeKind then "time"
  else if t =? DurationKind then "duration"
  else if t =? Float32Kind then "float32"
  else if t =? Float64Kind then "float64"
  else if t =? Bech32AddressKind then "bech32address"
  else if t =? EnumKind then "enum"
  else if t =? JSONKind then "json"
  else "".

(** *** The acceptance contract as the constants' documentation words it

    One rule per sentence of the doc comments of the [Kind] constants. *)
Inductive StringLikeKind : Kind -> Prop :=
| sl_string : StringLikeKind StringKind
| sl_integer : StringLikeKind IntegerKind
| sl_decimal : StringLikeKind DecimalKind
| sl_bech32 : StringLikeKind Bech32AddressKind
| sl_enum : StringLikeKind EnumKind.

Inductive Accepts : Kind -> GoType -> Prop :=
| acc_string k : StringLikeKind k -> Accepts k TString
| acc_stringer k ty :
    StringLikeKind k -> implementsStringer ty = true -> Accepts k ty
| acc_integer_int64 : Accepts IntegerKind TInt64
| acc_bech32_bytes : Accepts Bech32AddressKind TBytes
| acc_bytes : Accepts BytesKind TBytes
| acc_int8 : Accepts Int8Kind TInt8
| acc_uint8 : Accepts Uint8Kind TUint8
| acc_int16 : Accepts Int16Kind TInt16
| acc_uint16 : Accepts Uint16Kind TUint16
| acc_int32 : Accepts Int32Kind TInt32
| acc_uint32 : Accepts Uint32Kind TUint32
| acc_int64 : Accepts Int64Kind TInt64
| acc_uint64 : Accepts Uint64Kind TUint64
| acc_bool : Accepts BoolKind TBool
| acc_time : Accepts TimeKind TTime
| acc_duration : Accepts DurationKind TDuration
| acc_float32 : Accepts Float32Kind TFloat32
| acc_float64 : Accepts Float64Kind TFloat64.

(** The runtime type of [value] is in the documented acceptance set of [t];
    a nil interface value has no runtime type. *)
Definition inAcceptanceSet (t : Kind) (value : any) : Prop :=
  exists ty, typeOf value = Some ty /\ Accepts t ty.

(** A boolean reading of [Accepts], used to decide it in the proofs. *)
Definition stringLikeb (t : Kind) : bool :=
  (t =? StringKind) || (t =? IntegerKind) || (t =? DecimalKind)
  || (t =? Bech32AddressKind) || (t =? EnumKind).

Definition exactTypeOf (t : Kind) : option GoType :=
  if t =? BytesKind then Some TBytes
  else if t =? Int8Kind then Some TInt8
  else if t =? Uint8Kind then Some TUint8
  else if t =? Int16Kind then Some TInt16
  else if t =? Uint16Kind then Some TUint16
  else if t =? Int32Kind then Some TInt32
  else if t =? Uint32Kind then Some TUint32
  else if t =? Int64Kind then Some TInt64
  else if t =? Uint64Kind then Some TUint64
  else if t =? BoolKind then Some TBool
  else if t =? TimeKind then Some TTime
  else if t =? DurationKind then Some TDuration
  else if t =? Float32Kind then Some TFloat32
  else if t =? Float64Kind then Some TFloat64
  else None.

Definition acceptsb (t : Kind) (ty : GoType) : bool :=
  (stringLikeb t && (GoType_eqb ty TString || implementsStringer ty))
  || ((t =? IntegerKind) && GoType_eqb ty TInt64)
  || ((t =? Bech32AddressKind) && GoType_eqb ty TBytes)
  || match exactTypeOf t with
     | Some T => GoType_eqb ty T
     | None => false
     end.

(** The types the type switch of [KindForGoValue] names in a case. *)
Definition recognized (ty : GoType) : bool :=
  match ty with
  | TNamed _ str => str
  | _ => true
  end.

(** A value is string-like when [StringKind] accepts it, and ambiguous when
    one of the kinds that are spelled as strings would accept it as well. *)
Definition ambiguousStringLike (value : any) : Prop :=
  inAcceptanceSet StringKind value /\
  (inAcceptanceSet IntegerKind value \/ inAcceptanceSet DecimalKind value \/
   inAcceptanceSet Bech32AddressKind value \/ inAcceptanceSet EnumKind value).

End indexerbase.

Module indexer.

(** *** Fixed-width integers

    [lastBlockPersisted] is an [int64]; the height of a block is a [uint64].
    Both are kept as [Z], the wrap-around of the 64-bit operations written
    out. *)
Definition isInt64 (z : Z) : Prop := - 2 ^ 63 <= z < 2 ^ 63.
Definition isUint64 (z : Z) : Prop := 0 <= z < 2 ^ 64.

(** The conversion [int64(x)], and the result of an [int64] operation whose
    exact value is [z]: the representative of [z] modulo [2^64] in the
    [int64] range. *)
Definition int64 (z : Z) : Z := (z + 2 ^ 63) mod 2 ^ 64 - 2 ^ 63.

(** *** Listeners *)

(** Modelled from the spec: [appdata.Listener] and the data of its events are
    declared outside these sources.  A listener is a bundle of optional
    callback slots, one per category of event (block start, per-actor
    key/value write, commit); an unset slot is [None].  A callback runs
    against the state [W] of whatever stands behind the listener and returns
    an [error].  [sync.go] reads and writes the [StartBlock] slot and reads
    [Height], a [uint64], off its data. *)
Record StartBlockData : Type := { Height : Z }.
Record KVPairData : Type := { Actor : string; Key : string; Value : string }.

Definition Handler (W D : Type) : Type := D -> W -> error * W.

Record Listener (W : Type) : Type := {
  StartBlock : option (Handler W StartBlockData);
  OnKVPair : option (Handler W KVPairData);
  Commit : option (Handler W unit)
}.
Arguments StartBlock {W} _.
Arguments OnKVPair {W} _.
Arguments Commit {W} _.

(** [callback(data)] when the slot is set, nil otherwise. *)
Definition invoke {W D : Type} (slot : option (Handler W D)) : Handler W D :=
  fun data w =>
    match slot with
    | Some callback => callback data w
    | None => (None, w)
    end.

(** How a call ends: it returns its results, or it panics and returns
    nothing.  The one panic [StartManager] can raise by itself is the type
    assertion on the scoped logger, which has no comma-ok form. *)
Inductive Outcome (A : Type) : Type :=
| Returned (a : A)
| Panicked.
Arguments Returned {A} a.
Arguments Panicked {A}.

(** *** Types of the packages the manager works with

    None of them is declared in these sources; the manager passes their
    values around without looking inside. *)
Class Types : Type := {
  (** the state behind the indexers: their stores, the sync source, the log *)
  World : Type;
  (** the state behind the multiplexed root listener *)
  MuxWorld : Type;
  decoding_DecoderResolver : Type;
  decoding_SyncSource : Type;
  logutil_Logger : Type;
  context_Context : Type;
  (** [map[string]interface{}] *)
  JSONObject : Type;
  ModuleFilterConfig : Type;
  FilterConfig : Type;
  (** the result type of [ModuleFilterConfig.ToFunction] *)
  ModuleFilterFunc : Type;
  (** the backend's own part of a target's configuration *)
  BackendConfig : Type
}.

Section Model.
Context {T : Types}.

(** The dynamic value of [ManagerOptions.Config], an [interface{}], as
    [unmarshalConfig] tells its cases apart; [ConfigOther] carries what [%T]
    prints for any other value. *)
Inductive ConfigValue : Type :=
| ConfigMap (m : JSONObject)
| ConfigRawMessage (bz : string)
| ConfigOther (typeName : string).

(** [type ManagerOptions struct]: fields [Config], [Resolver], [SyncSource],
    [Logger] and [Context]; an omitted [Logger] or [Context] is nil. *)
Record ManagerOptions : Type := {
  Config_ : ConfigValue;
  Resolver : decoding_DecoderResolver;
  SyncSource : decoding_SyncSource;
  Logger : option logutil_Logger;
  Context_ : option context_Context
}.

(** [decoding.SyncOptions] *)
Record SyncOptions : Type := { ModuleFilter : ModuleFilterFunc }.

(** One call [decoding.Sync(listener, source, resolver, opts)].
    [sync_listener] stands for the guarded listener the call receives: it
    holds the slots of that listener, the [StartBlock] slot with the callback
    the guard wraps (the guard itself is the closure making the call). *)
Record SyncCall : Type := {
  sync_listener : Listener World;
  sync_source : decoding_SyncSource;
  sync_resolver : decoding_DecoderResolver;
  sync_opts : SyncOptions
}.

(** The state a guarded listener runs against: the captured variable
    [initialized] of its closure, the calls to [decoding.Sync] made so far
    (kept for the proofs), and the state behind the wrapped listener. *)
Record GuardWorld : Type := {
  initialized : bool;
  syncCalls : list SyncCall;
  inner : World
}.

(** The guard world of a listener that was just built: [initialized := false]. *)
Definition newGuardWorld (w : World) : GuardWorld :=
  {| initialized := false; syncCalls := []; inner := w |}.

(** A callback of the wrapped listener, run from the guarded one. *)
Definition lift {D : Type} (h : Handler World D) : Handler GuardWorld D :=
  fun data s =>
    let (err, w) := h data s.(inner) in
    (err, {| initialized := s.(initialized);
             syncCalls := s.(syncCalls);
             inner := w |}).

Definition liftListener (l : Listener World) : Listener GuardWorld :=
  {| StartBlock := option_map lift l.(StartBlock);
     OnKVPair := option_map lift l.(OnKVPair);
     Commit := option_map lift l.(Commit) |}.

(** [type Config struct], the configuration of one target: fields [Type],
    [Filter] and the backend's own. *)
Record Config : Type := {
  Type_ : string;
  Filter : FilterConfig;
  Backend : BackendConfig
}.

(** [type ManagerConfig struct].  [Target] is a Go map; it is kept as the list
    of its entries in the order the [range] loop of [StartManager] visits
    them, which Go leaves unspecified. *)
Record ManagerConfig : Type := { Target : list (string * Config) }.

(** [type ManagerResult struct]: fields [Listener] and [ModuleFilter]. *)
Record ManagerResult : Type := {
  mr_Listener : Listener MuxWorld;
  mr_ModuleFilter : ModuleFilterConfig
}.

(** [InitParams] and [InitResult] of the target registry. *)
Record InitParams : Type := {
  ip_Config : Config;
  ip_Context : context_Context;
  ip_Logger : logutil_Logger
}.

Record InitResult : Type := {
  ir_Listener : Listener World;
  LastBlockPersisted : Z
}.

Definition InitFunc : Type := InitParams -> World -> (InitResult * error) * World.

(** What [unmarshalConfig] returns, a pointer to a [ManagerConfig] and an
    [error]: a nil pointer
    with the non-nil error of the statement that returned it, or the address
    of [res] with the error of [json.Unmarshal]. *)
Inductive Unmarshalled : Type :=
| nil_with (err : string)
| res_with (res : ManagerConfig) (err : error).

(** *** Functions of the packages the manager works with

    The functions the two files call and do not define. *)
Class Externals : Type := {
  (** [ModuleFilterConfig.ToFunction] and the field [FilterConfig.Modules] *)
  ToFunction : ModuleFilterConfig -> ModuleFilterFunc;
  Modules : FilterConfig -> ModuleFilterConfig;
  (** [decoding.Sync]; it runs against the state behind the listener *)
  decoding_Sync : SyncCall -> World -> error * World;
  (** [FilterConfig.Validate], [FilterConfig.Apply],
      [ModuleFilterConfig.Apply], [combineModuleFilters] *)
  FilterConfig_Validate : FilterConfig -> error;
  FilterConfig_Apply : FilterConfig -> Listener World -> Listener World;
  ModuleFilterConfig_Apply :
    ModuleFilterConfig -> Listener MuxWorld -> Listener MuxWorld;
  combineModuleFilters : list ModuleFilterConfig -> ModuleFilterConfig;
  (** the zero value of [ModuleFilterConfig] *)
  zeroModuleFilterConfig : ModuleFilterConfig;
  (** [appdata.AsyncListenerMux(appdata.AsyncListenerOptions{Context: ctx}, listeners...)] *)
  AsyncListenerMux :
    context_Context -> list (Listener GuardWorld) -> Listener MuxWorld;
  (** the package variable [indexerRegistry], a map from type name to
      initializer *)
  indexerRegistry : string -> option InitFunc;
  (** [logutil.NoopLogger{}], [Logger.Info(msg, keyVals...)], and
      [logger.(logutil.ScopeableLogger)]: [Some withAsAny] for a logger that
      implements the interface.  [withAsAny key value] is the value
      [WithAsAny(key, value)] returns, an [any], read through the assertion
      [.(logutil.Logger)]: [Some l] when it is the logger [l], [None] when it
      is no [logutil.Logger] *)
  NoopLogger : logutil_Logger;
  Logger_Info : logutil_Logger -> string -> list string -> World -> World;
  asScopeableLogger :
    logutil_Logger -> option (string -> string -> option logutil_Logger);
  (** [context.Background()] *)
  context_Background : context_Context;
  (** [json.Marshal] of a map; [json.Unmarshal] into a zero [ManagerConfig]:
      the value left in it and the error *)
  json_Marshal : JSONObject -> string * error;
  json_Unmarshal : string -> ManagerConfig * error;
  (** the [%q] verb on a string *)
  fmt_q : string -> string
}.

Context {E : Externals}.

(** **** [sync.go] *)

(** The call [decoding.Sync(...)] from the guard: it runs against the state
    behind the listener and is added to [syncCalls]. *)
Definition callSync (c : SyncCall) (s : GuardWorld) : error * GuardWorld :=
  let (err, w) := decoding_Sync c s.(inner) in
  (err, {| initialized := s.(initialized);
           syncCalls := s.(syncCalls) ++ [c];
           inner := w |}).

(** [func doSyncAndSanityCheck(lastBlockPersisted int64, data appdata.StartBlockData,
    listener appdata.Listener, mgrOpts ManagerOptions, moduleFilter ModuleFilterConfig) error] *)
Definition doSyncAndSanityCheck (lastBlockPersisted : Z) (data : StartBlockData)
    (listener : Listener World) (mgrOpts : ManagerOptions)
    (moduleFilter : ModuleFilterConfig) (s : GuardWorld) : error * GuardWorld :=
  if lastBlockPersisted =? 0 then
    if data.(Height) =? 1 then
      (None, s)
    else
      callSync {| sync_listener := listener;
                  sync_source := mgrOpts.(SyncSource);
                  sync_resolver := mgrOpts.(Resolver);
                  sync_opts := {| ModuleFilter := ToFunction moduleFilter |} |} s
  else if negb (int64 (lastBlockPersisted + 1) =? int64 data.(Height)) then
    (Some ("fatal error: indexer is out of sync, last block persisted: "
           ++ fmt_d lastBlockPersisted ++ ", current block height: "
           ++ fmt_d data.(Height)), s)
  else
    (None, s).

Definition setInitialized (b : bool) (s : GuardWorld) : GuardWorld :=
  {| initialized := b; syncCalls := s.(syncCalls); inner := s.(inner) |}.

(** The closure [addSyncAndSanityCheck] stores in [listener.StartBlock];
    [startBlock] is the previous content of the slot, [listener] the variable
    the closure captures. *)
Definition guardedStartBlock (lastBlockPersisted : Z)
    (startBlock : option (Handler World StartBlockData))
    (listener : Listener World) (mgrOpts : ManagerOptions)
    (moduleFilter : ModuleFilterConfig) : Handler GuardWorld StartBlockData :=
  fun data s =>
    if negb s.(initialized) then
      match doSyncAndSanityCheck lastBlockPersisted data listener mgrOpts
              moduleFilter s with
      | (Some err, s1) => (Some err, s1)
      | (None, s1) => invoke (option_map lift startBlock) data (setInitialized true s1)
      end
    else invoke (option_map lift startBlock) data s.

(** [func addSyncAndSanityCheck(lastBlockPersisted int64, listener appdata.Listener,
    mgrOpts ManagerOptions, moduleFilter ModuleFilterConfig) appdata.Listener].
    The listener it returns runs against a [GuardWorld] that starts as
    [newGuardWorld]. *)
Definition addSyncAndSanityCheck (lastBlockPersisted : Z)
    (listener : Listener World) (mgrOpts : ManagerOptions)
    (moduleFilter : ModuleFilterConfig) : Listener GuardWorld :=
  if lastBlockPersisted =? -1 then
    liftListener listener
  else
    let startBlock := listener.(StartBlock) in
    {| StartBlock := Some (guardedStartBlock lastBlockPersisted startBlock
                             listener mgrOpts moduleFilter);
       OnKVPair := (liftListener listener).(OnKVPair);
       Commit := (liftListener listener).(Commit) |}.

(** **** The manager *)

(** [ManagerResult{}]: every slot of the listener unset, the zero filter. *)
Definition zeroManagerResult : ManagerResult :=
  {| mr_Listener := {| StartBlock := None; OnKVPair := None; Commit := None |};
     mr_ModuleFilter := zeroModuleFilterConfig |}.

(** [func unmarshalConfig(cfg interface{})], returning a pointer to a
    [ManagerConfig] and an [error] (read as [Unmarshalled] says). *)
Definition unmarshalConfig (cfg : ConfigValue) : Unmarshalled :=
  let unmarshal (jsonBz : string) :=
    let (res, err) := json_Unmarshal jsonBz in res_with res err in
  match cfg with
  | ConfigMap m =>
      match json_Marshal m with
      | (_, Some err) => nil_with err
      | (jsonBz, None) => unmarshal jsonBz
      end
  | ConfigRawMessage bz => unmarshal bz
  | ConfigOther typeName =>
      nil_with ("can't convert " ++ typeName ++ " to indexer.ManagerConfig")
  end.

(** [childLogger] of the loop body: [logger] itself when it cannot be scoped
    ([canScopeLogger] is false), else
    [scopeableLogger.WithAsAny("indexer", targetName).(logutil.Logger)]:
    [None] when that assertion panics. *)
Definition childLoggerFor (logger : logutil_Logger) (targetName : string)
  : option logutil_Logger :=
  match asScopeableLogger logger with
  | Some withAsAny => withAsAny "indexer" targetName
  | None => Some logger
  end.

(** The body of the loop [for targetName, targetCfg := range cfg.Target] of
    [StartManager]: [Returned (inl err)] when the body returns from
    [StartManager] with [err], [Returned (inr _)] with the listener and the
    module filter it appends otherwise, [Panicked] when the assertion on the
    scoped logger fails. *)
Definition startTarget (opts : ManagerOptions) (logger : logutil_Logger)
    (ctx : context_Context) (targetName : string) (targetCfg : Config)
    (w : World)
  : Outcome (string + Listener GuardWorld * ModuleFilterConfig) * World :=
  match indexerRegistry targetCfg.(Type_) with
  | None =>
      (Returned
         (inl ("indexer type " ++ fmt_q targetCfg.(Type_) ++ " not found")), w)
  | Some init =>
      let w := Logger_Info logger "Starting indexer"
                 ["target"; targetName; "type"; targetCfg.(Type_)] w in
      match FilterConfig_Validate targetCfg.(Filter) with
      | Some err =>
          (Returned
             (inl ("invalid filter for target " ++ fmt_q targetName ++ ": "
                   ++ err)), w)
      | None =>
          match childLoggerFor logger targetName with
          | None => (Panicked, w)
          | Some childLogger =>
              match init {| ip_Config := targetCfg;
                            ip_Context := ctx;
                            ip_Logger := childLogger |} w with
              | (_, Some err, w) => (Returned (inl err), w)
              | (initRes, None, w) =>
                  let listener :=
                    FilterConfig_Apply targetCfg.(Filter)
                      initRes.(ir_Listener) in
                  let listener :=
                    addSyncAndSanityCheck initRes.(LastBlockPersisted)
                      listener opts (Modules targetCfg.(Filter)) in
                  (Returned (inr (listener, Modules targetCfg.(Filter))), w)
              end
          end
      end
  end.

(** The loop itself, over the entries still to visit, with the slices
    [listeners] and [allModuleFilters] built so far. *)
Fixpoint startTargets (opts : ManagerOptions) (logger : logutil_Logger)
    (ctx : context_Context) (targets : list (string * Config))
    (listeners : list (Listener GuardWorld))
    (allModuleFilters : list ModuleFilterConfig) (w : World)
  : Outcome (string + list (Listener GuardWorld) * list ModuleFilterConfig)
    * World :=
  match targets with
  | [] => (Returned (inr (listeners, allModuleFilters)), w)
  | (targetName, targetCfg) :: rest =>
      match startTarget opts logger ctx targetName targetCfg w with
      | (Panicked, w) => (Panicked, w)
      | (Returned (inl err), w) => (Returned (inl err), w)
      | (Returned (inr (listener, moduleFilter)), w) =>
          startTargets opts logger ctx rest (listeners ++ [listener])
            (allModuleFilters ++ [moduleFilter]) w
      end
  end.

(** [func StartManager(opts ManagerOptions) (ManagerResult, error)] *)
Definition StartManager (opts : ManagerOptions) (w : World)
  : Outcome (ManagerResult * error) * World :=
  let logger :=
    match opts.(Logger) with
    | Some logger => logger
    | None => NoopLogger
    end in
  let w := Logger_Info logger "Starting indexer manager" [] w in
  match unmarshalConfig opts.(Config_) with
  | nil_with err => (Returned (zeroManagerResult, Some err), w)
  | res_with _ (Some err) => (Returned (zeroManagerResult, Some err), w)
  | res_with cfg None =>
      let ctx :=
        match opts.(Context_) with
        | Some ctx => ctx
        | None => context_Background
        end in
      match startTargets opts logger ctx cfg.(Target) [] [] w with
      | (Panicked, w) => (Panicked, w)
      | (Returned (inl err), w) => (Returned (zeroManagerResult, Some err), w)
      | (Returned (inr (listeners, allModuleFilters)), w) =>
          let rootListener := AsyncListenerMux ctx listeners in
          let rootModuleFilter := combineModuleFilters allModuleFilters in
          let rootListener :=
            ModuleFilterConfig_Apply rootModuleFilter rootListener in
          (Returned ({| mr_Listener := rootListener;
                        mr_ModuleFilter := rootModuleFilter |}, None), w)
      end
  end.

(** Block-start events delivered one after the other to a listener; the
    error of each delivery is collected. *)
Fixpoint deliverStartBlocks {W : Type} (l : Listener W)
    (events : list StartBlockData) (s : W) : list error * W :=
  match events with
  | [] => ([], s)
  | data :: rest =>
      let (err, s1) := invoke l.(StartBlock) data s in
      let (errs, s2) := deliverStartBlocks l rest s1 in
      (err :: errs, s2)
  end.

(** **** Vocabulary of the properties *)

(** The state in which a guarded listener sees its first block start. *)
Definition unchecked (s : GuardWorld) : Prop := s.(initialized) = false.

(** The catch-up sync call of this target; no height is part of it. *)
Definition catchUpCall (listener : Listener World) (mgrOpts : ManagerOptions)
    (moduleFilter : ModuleFilterConfig) : SyncCall :=
  {| sync_listener := listener;
     sync_source := mgrOpts.(SyncSource);
     sync_resolver := mgrOpts.(Resolver);
     sync_opts := {| ModuleFilter := ToFunction moduleFilter |} |}.

(** [l] is the listener the loop of [StartManager] builds for [target]: the
    target's type resolves in the registry, its filter validates, its
    initializer returned [initRes] without an error, and [l] is the sync
    guard around the filter applied to the initializer's listener. *)
Definition builtFor (opts : ManagerOptions) (target : string * Config)
    (l : Listener GuardWorld) : Prop :=
  exists (init : InitFunc) (params : InitParams) (w1 w2 : World)
         (initRes : InitResult),
    indexerRegistry (snd target).(Type_) = Some init /\
    FilterConfig_Validate (snd target).(Filter) = None /\
    params.(ip_Config) = snd target /\
    init params w1 = (initRes, None, w2) /\
    l = addSyncAndSanityCheck initRes.(LastBlockPersisted)
          (FilterConfig_Apply (snd target).(Filter) initRes.(ir_Listener))
          opts (Modules (snd target).(Filter)).


Definition filterOf (target : string * Config) : ModuleFilterConfig :=
  Modules (snd target).(Filter).

(** The context the manager works with: [opts.Context], or
    [context.Background()] when it is nil. *)
Definition managerContext (opts : ManagerOptions) : context_Context :=
  match opts.(Context_) with
  | Some ctx => ctx
  | None => context_Background
  end.

(** [res] is a fully built result: the configuration was converted without
    an error, a listener was built for every target, and [res] holds the
    combined filter of all targets and that filter applied to the
    multiplexer of all the listeners. *)
Definition fullyBuilt (opts : ManagerOptions) (res : ManagerResult) : Prop :=
  exists (cfg : ManagerConfig) (listeners : list (Listener GuardWorld)),
    unmarshalConfig opts.(Config_) = res_with cfg None /\
    Forall2 (builtFor opts) cfg.(Target) listeners /\
    let rootModuleFilter := combineModuleFilters (map filterOf cfg.(Target)) in
    res = {| mr_Listener :=
               ModuleFilterConfig_Apply rootModuleFilter
                 (AsyncListenerMux (managerContext opts) listeners);
             mr_ModuleFilter := rootModuleFilter |}.


(** The error of a failed sanity check, as [doSyncAndSanityCheck] words it. *)
Definition outOfSyncError (lastBlockPersisted : Z) (data : StartBlockData)
  : error :=
  Some ("fatal error: indexer is out of sync, last block persisted: "
        ++ fmt_d lastBlockPersisted ++ ", current block height: "
        ++ fmt_d data.(Height)).

(** [opts] with another value in its [Config] field. *)
Definition withConfig (opts : ManagerOptions) (cfg : ConfigValue)
  : ManagerOptions :=
  {| Config_ := cfg;
     Resolver := opts.(Resolver);
     SyncSource := opts.(SyncSource);
     Logger := opts.(Logger);
     Context_ := opts.(Context_) |}.

(** The logger the manager works with: [opts.Logger], or the no-op logger
    when it is nil. *)
Definition managerLogger (opts : ManagerOptions) : logutil_Logger :=
  match opts.(Logger) with
  | Some logger => logger
  | None => NoopLogger
  end.

End Model.
End indexer.

(** ** A small concrete setting

    One instance of the types and functions the manager is handed, used to run
    the definitions above on concrete inputs: a backend that journals what it
    receives, a registry with a working and a failing indexer type, and a
    module filter that is an allow-list. *)
Module demo.
Import indexer.

(** The journal of the backend and of the sync source. *)
Definition Journal : Type := list string.

#[local] Instance demoTypes : Types := {|
  World := Journal;
  MuxWorld := Journal;
  decoding_DecoderResolver := unit;
  decoding_SyncSource := unit;
  logutil_Logger := string;
  context_Context := unit;
  JSONObject := string;
  ModuleFilterConfig := list string;
  FilterConfig := list string;
  ModuleFilterFunc := string -> bool;
  BackendConfig := unit
|}.

(** Modelled from the spec: [ModuleFilterConfig] and its [ToFunction] are
    declared outside these sources.  The filter is an allow-list of module
    names; the empty list lets every module through. *)
Definition passes (allow : list string) (moduleName : string) : bool :=
  match allow with
  | [] => true
  | _ => existsb (String.eqb moduleName) allow
  end.

(** Modelled from the spec: [Apply] of a filter is declared outside these
    sources.  It returns a listener whose per-write callback returns at once,
    with no error, for a write of a module the filter does not let through;
    the other events pass unchanged. *)
Definition applyModuleFilter {W : Type} (allow : list string)
    (l : Listener W) : Listener W :=
  {| StartBlock := l.(StartBlock);
     OnKVPair :=
       option_map
         (fun (h : Handler W KVPairData) data w =>
            if passes allow data.(Actor) then h data w else (None, w))
         l.(OnKVPair);
     Commit := l.(Commit) |}.

(** The listener of the journalling backend. *)
Definition journalListener : Listener Journal :=
  {| StartBlock :=
       Some (fun data w =>
               (None, app w [("block " ++ fmt_d data.(Height))%string]));
     OnKVPair :=
       Some (fun data w => (None, app w [("write " ++ data.(Actor))%string]));
     Commit := None |}.

(** Two indexer types: ["journal"], which has persisted nothing yet, and
    ["broken"], whose initializer fails. *)
Definition demoRegistry (typeName : string) : option InitFunc :=
  if String.eqb typeName "journal" then
    Some (fun _ w =>
            ({| ir_Listener := journalListener; LastBlockPersisted := 0 |},
             None, w))
  else if String.eqb typeName "broken" then
    Some (fun _ w =>
            ({| ir_Listener := journalListener; LastBlockPersisted := 0 |},
             Some "cannot open the store", w))
  else None.

Definition bankTarget : Config :=
  {| Type_ := "journal"; Filter := ["bank"]; Backend := tt |}.

Definition bankConfig : ManagerConfig := {| Target := [("bank-only", bankTarget)] |}.

Definition brokenTarget : Config :=
  {| Type_ := "broken"; Filter := []; Backend := tt |}.

(** A working target, visited first, and one whose initializer fails. *)
Definition brokenConfig : ManagerConfig :=
  {| Target := [("bank-only", bankTarget); ("second", brokenTarget)] |}.

(** A decoder that knows two documents. *)
Definition demoUnmarshal (jsonBz : string) : ManagerConfig * error :=
  if String.eqb jsonBz "bank.json" then (bankConfig, None)
  else if String.eqb jsonBz "broken.json" then (brokenConfig, None)
  else ({| Target := [] |}, Some "invalid character")%string.

#[local] Instance demoExternals : Externals := {|
  ToFunction := passes;
  Modules := fun f => f;
  decoding_Sync := fun _ w => (None, app w ["sync"]);
  FilterConfig_Validate := fun _ => None;
  FilterConfig_Apply := applyModuleFilter;
  ModuleFilterConfig_Apply := applyModuleFilter;
  combineModuleFilters := @List.concat string;
  zeroModuleFilterConfig := [];
  AsyncListenerMux := fun _ _ =>
    {| StartBlock := None; OnKVPair := None; Commit := None |};
  indexerRegistry := demoRegistry;
  NoopLogger := "";
  Logger_Info := fun _ _ _ w => w;
  asScopeableLogger := fun _ => None;
  context_Background := tt;
  json_Marshal := fun m => (m, None);
  json_Unmarshal := demoUnmarshal;
  fmt_q := fun s => s
|}.

Definition demoOptions : ManagerOptions :=
  {| Config_ := ConfigRawMessage "bank.json";
     Resolver := tt;
     SyncSource := tt;
     Logger := None;
     Context_ := None |}.

Definition optionsWith (cfg : ConfigValue) : ManagerOptions :=
  {| Config_ := cfg;
     Resolver := tt;
     SyncSource := tt;
     Logger := None;
     Context_ := None |}.

Definition block (h : Z) : StartBlockData := {| Height := h |}.

(** The listener [StartManager] builds for a target of the journalling
    backend whose last persisted block is [lastBlockPersisted]. *)
Definition guarded (lastBlockPersisted : Z) : Listener GuardWorld :=
  addSyncAndSanityCheck lastBlockPersisted journalListener demoOptions ["bank"].

(** The listener [StartManager] builds for [bankTarget]: the guard around
    the filtered journal. *)
Definition builtForBank : Listener GuardWorld :=
  addSyncAndSanityCheck 0 (applyModuleFilter ["bank"] journalListener)
    demoOptions ["bank"].

(** The order C5 words: the filter around the guarded journal. *)
Definition filterAroundGuard : Listener GuardWorld :=
  applyModuleFilter ["bank"]
    (addSyncAndSanityCheck 0 journalListener demoOptions ["bank"]).

(** What the listener handed to the first catch-up sync of [l] does with a
    replayed write of module ["staking"]: the journal after that write. *)
Definition replayedStakingWrite (l : Listener GuardWorld) : Journal :=
  match (snd (invoke l.(StartBlock) (block 10)
                (newGuardWorld ([] : Journal)))).(syncCalls) with
  | call :: _ =>
      snd (invoke call.(sync_listener).(OnKVPair)
             {| Actor := "staking"; Key := "k"; Value := "v" |} [])
  | [] => []
  end.

(** The state of a guarded listener that was just built over an empty
    journal. *)
Definition freshGuard : GuardWorld := newGuardWorld ([] : Journal).

End demo.

(** ** A second concrete setting, for the failure paths

    The same types; the logger and the initializers journal what they do, the
    sync source is unavailable, and the configuration names an indexer type
    nobody registered between a working target and one never reached. *)
Module demo_failures.
Import indexer demo.
#[local] Existing Instance demoTypes.

(** The type ["journal"] alone; its initializer leaves a line in the journal. *)
Definition loggingRegistry (typeName : string) : option InitFunc :=
  if String.eqb typeName "journal" then
    Some (fun _ w =>
            ({| ir_Listener := journalListener; LastBlockPersisted := 0 |},
             None, app w ["init journal"]))
  else None.

Definition ghostTarget : Config :=
  {| Type_ := "ghost"; Filter := []; Backend := tt |}.

Definition ghostConfig : ManagerConfig :=
  {| Target := [("bank-only", bankTarget); ("ghost", ghostTarget);
                ("never", bankTarget)] |}.

#[local] Instance failingExternals : Externals := {|
  ToFunction := passes;
  Modules := fun f => f;
  decoding_Sync := fun _ w => (Some "sync source unavailable", app w ["sync"]);
  FilterConfig_Validate := fun _ => None;
  FilterConfig_Apply := applyModuleFilter;
  ModuleFilterConfig_Apply := applyModuleFilter;
  combineModuleFilters := @List.concat string;
  zeroModuleFilterConfig := [];
  AsyncListenerMux := fun _ _ =>
    {| StartBlock := None; OnKVPair := None; Commit := None |};
  indexerRegistry := loggingRegistry;
  NoopLogger := "";
  Logger_Info := fun _ msg _ w => app w [msg];
  asScopeableLogger := fun _ => None;
  context_Background := tt;
  json_Marshal := fun m => (m, None);
  json_Unmarshal := fun _ => (ghostConfig, None);
  fmt_q := fun s => s
|}.

(** The guarded journal over the unavailable sync source. *)
Definition guardedOffline (lastBlockPersisted : Z) : Listener GuardWorld :=
  addSyncAndSanityCheck lastBlockPersisted journalListener demoOptions ["bank"].

End demo_failures.

(** ** A third concrete setting, for the scoped logger

    The journalling backend again, with a logger that can be scoped and whose
    [WithAsAny] returns a value that is no [logutil.Logger]. *)
Module demo_scoped.
Import indexer demo.
#[local] Existing Instance demoTypes.

#[local] Instance scopedExternals : Externals := {|
  ToFunction := passes;
  Modules := fun f => f;
  decoding_Sync := fun _ w => (None, app w ["sync"]);
  FilterConfig_Validate := fun _ => None;
  FilterConfig_Apply := applyModuleFilter;
  ModuleFilterConfig_Apply := applyModuleFilter;
  combineModuleFilters := @List.concat string;
  zeroModuleFilterConfig := [];
  AsyncListenerMux := fun _ _ =>
    {| StartBlock := None; OnKVPair := None; Commit := None |};
  indexerRegistry := demoRegistry;
  NoopLogger := "";
  Logger_Info := fun _ _ _ w => w;
  asScopeableLogger := fun _ => Some (fun _ _ => None);
  context_Background := tt;
  json_Marshal := fun m => (m, None);
  json_Unmarshal := demoUnmarshal;
  fmt_q := fun s => s
|}.

End demo_scoped.

(** * Properties of the value kinds ([indexerbase]) *)

Section KindProperties.
Import indexerbase.

Lemma GoType_eqb_eq (a b : GoType) : GoType_eqb a b = true <-> a = b.
Proof.
  split.
  - destruct a, b; simpl; try discriminate; try reflexivity.
    intro H. apply andb_true_iff in H. destruct H as [Hn Hs].
    apply String.eqb_eq in Hn. apply Bool.eqb_prop in Hs. congruence.
  - intros <-. destruct a; simpl; try reflexivity.
    rewrite String.eqb_refl, Bool.eqb_reflx. reflexivity.
Qed.

Lemma assertType_typeOf (value : any) (T : GoType) :
  assertType value T = true <-> typeOf value = Some T.
Proof.
  destruct value as [|ty data]; simpl.
  - split; discriminate.
  - rewrite GoType_eqb_eq. split; congruence.
Qed.

(** Every kind is one of the twenty constants or lies outside their range. *)
Lemma Kind_cases (t : Kind) :
  (t <= InvalidKind \/ JSONKind < t) \/
  In t [StringKind; BytesKind; Int8Kind; Uint8Kind; Int16Kind; Uint16Kind;
        Int32Kind; Uint32Kind; Int64Kind; Uint64Kind; IntegerKind;
        DecimalKind; BoolKind; TimeKind; DurationKind; Float32Kind;
        Float64Kind; Bech32AddressKind; EnumKind; JSONKind].
Proof.
  unfold InvalidKind, JSONKind, StringKind, BytesKind, Int8Kind, Uint8Kind,
    Int16Kind, Uint16Kind, Int32Kind, Uint32Kind, Int64Kind, Uint64Kind,
    IntegerKind, DecimalKind, BoolKind, TimeKind, DurationKind, Float32Kind,
    Float64Kind, Bech32AddressKind, EnumKind.
  simpl. lia.
Qed.

Ltac unfold_kinds :=
  unfold InvalidKind, JSONKind, StringKind, BytesKind, Int8Kind, Uint8Kind,
    Int16Kind, Uint16Kind, Int32Kind, Uint32Kind, Int64Kind, Uint64Kind,
    IntegerKind, DecimalKind, BoolKind, TimeKind, DurationKind, Float32Kind,
    Float64Kind, Bech32AddressKind, EnumKind in *.

(** Splits on the kind: one goal per constant, and one for a kind outside
    the constants, where every comparison with a constant is rewritten to
    [false]. *)
Ltac kind_cases t :=
  let H := fresh "Hk" in
  destruct (Kind_cases t) as [H | H];
  [ unfold_kinds;
    repeat match goal with
    | |- context [t =? ?c] =>
        replace (t =? c) with false by (symmetry; apply Z.eqb_neq; lia)
    end
  | simpl in H;
    repeat (destruct H as [H | H]; [ subst t | ]); [ .. | contradiction ] ].

Lemma StringLikeKind_stringLikeb (t : Kind) :
  StringLikeKind t <-> stringLikeb t = true.
Proof.
  split.
  - destruct 1; reflexivity.
  - unfold stringLikeb. kind_cases t; simpl; try discriminate;
      intros _; constructor.
Qed.

Lemma Accepts_acceptsb (t : Kind) (ty : GoType) :
  Accepts t ty <-> acceptsb t ty = true.
Proof.
  split.
  - intros H.
    destruct H as [k Hk | k ty' Hk Hs | | | | | | | | | | | | | | | | ];
      try reflexivity.
    + destruct Hk; reflexivity.
    + unfold acceptsb. apply StringLikeKind_stringLikeb in Hk.
      rewrite Hk, Hs, orb_true_r. reflexivity.
  - unfold acceptsb, stringLikeb, exactTypeOf.
    kind_cases t; simpl; try discriminate;
      rewrite ?orb_false_r;
      try (intros H; apply GoType_eqb_eq in H; subst ty; constructor; fail).
    all: destruct ty; simpl; try discriminate; intros H;
      try (constructor; fail);
      try (apply acc_string; constructor);
      try (apply acc_stringer; [ constructor | simpl; try reflexivity ]).
    all: try (rewrite ?orb_false_r in H; exact H).
Qed.

(** C7.  For every integer [k], [Validate k] succeeds exactly when
    [InvalidKind < k <= JSONKind], and returns an error exactly when [k] is
    outside that range. *)
Theorem Validate_succeeds_iff_in_range (k : Kind) :
  (Validate k = None <-> InvalidKind < k <= JSONKind) /\
  ((exists msg, Validate k = Some msg) <-> ~ (InvalidKind < k <= JSONKind)).
Proof.
  unfold Validate.
  destruct (Z.leb_spec k InvalidKind) as [Hle | Hgt].
  - split; split.
    + discriminate.
    + intros [H _]. lia.
    + intros _ [H _]. lia.
    + intros _. eexists. reflexivity.
  - destruct (k >? JSONKind) eqn:Hk.
    + apply Z.gtb_lt in Hk. split; split.
      * discriminate.
      * intros [_ H]. lia.
      * intros _ [_ H]. lia.
      * intros _. eexists. reflexivity.
    + assert (k <= JSONKind) as Hle.
      { rewrite Z.gtb_ltb in Hk. apply Z.ltb_ge in Hk. exact Hk. }
      split; split.
      * intros _. split; assumption.
      * reflexivity.
      * intros [msg H]. discriminate.
      * intros H. exfalso. apply H. split; assumption.
Qed.

(** [ValidateValueType] returns nil exactly on [JSONKind] and on the values
    [acceptsb] admits. *)
Lemma ValidateValueType_acceptsb (t : Kind) (value : any) :
  match ValidateValueType t value with None => true | Some _ => false end =
  (t =? JSONKind)
  || match typeOf value with Some ty => acceptsb t ty | None => false end.
Proof.
  unfold ValidateValueType, expectExactly, acceptsb, stringLikeb, exactTypeOf.
  kind_cases t; destruct value as [|ty data]; simpl; try reflexivity;
    destruct ty as [ | | | | | | | | | | | | | | | | name str ]; simpl;
    try reflexivity; destruct str; reflexivity.
Qed.

Lemma ValidateValueType_nil_iff (t : Kind) (value : any) :
  ValidateValueType t value = None <->
  t = JSONKind \/ inAcceptanceSet t value.
Proof.
  pose proof (ValidateValueType_acceptsb t value) as Hb.
  unfold inAcceptanceSet. split.
  - intros Hnil. rewrite Hnil in Hb. symmetry in Hb.
    apply orb_true_iff in Hb. destruct Hb as [Hj | Ha].
    + left. apply Z.eqb_eq. exact Hj.
    + right. destruct (typeOf value) as [ty|]; [ | discriminate ].
      exists ty. split; [ reflexivity | apply Accepts_acceptsb; exact Ha ].
  - intros H. destruct (ValidateValueType t value) as [msg|]; [ | reflexivity ].
    exfalso. symmetry in Hb. apply orb_false_iff in Hb. destruct Hb as [Hj Ha].
    destruct H as [-> | [ty [Hty Hacc]]].
    + discriminate.
    + rewrite Hty in Ha. apply Accepts_acceptsb in Hacc. congruence.
Qed.

(** The [JSONKind] case of the switch returns nil at once. *)
Lemma ValidateValueType_JSONKind (value : any) :
  ValidateValueType JSONKind value = None.
Proof. reflexivity. Qed.

(** C8.  For every kind other than [JSONKind], [ValidateValueType] returns an
    error exactly when the runtime type of the value is outside the kind's
    documented acceptance set (and nil exactly when it is inside); for
    [JSONKind] it accepts every value; the outcome depends on the runtime type
    alone, so a string is accepted by every string-like kind whatever it
    spells. *)
Theorem ValidateValueType_acceptance_contract (t : Kind) (value : any) :
  (t <> JSONKind ->
     ((exists msg, ValidateValueType t value = Some msg) <->
        ~ inAcceptanceSet t value) /\
     (ValidateValueType t value = None <-> inAcceptanceSet t value)) /\
  ValidateValueType JSONKind value = None /\
  (forall value', typeOf value' = typeOf value ->
     ValidateValueType t value' = ValidateValueType t value) /\
  (forall data, StringLikeKind t ->
     ValidateValueType t (Iface TString data) = None).
Proof.
  split; [ | split; [ | split ] ].
  - intros Hnot. pose proof (ValidateValueType_nil_iff t value) as Hiff.
    split; split.
    + intros [msg Hmsg] Hin.
      assert (ValidateValueType t value = None) as Hnil
        by (apply Hiff; right; exact Hin).
      congruence.
    + intros Hout. destruct (ValidateValueType t value) as [msg|] eqn:E.
      * exists msg. reflexivity.
      * exfalso. destruct (proj1 Hiff eq_refl) as [Hj | Hin]; tauto.
    + intros Hnil. destruct (proj1 Hiff Hnil) as [Hj | Hin]; tauto.
    + intros Hin. apply Hiff. right. exact Hin.
  - apply ValidateValueType_JSONKind.
  - intros value' Hty.
    destruct value as [|ty data], value' as [|ty' data']; simpl in Hty;
      try discriminate; try reflexivity.
    injection Hty as ->. reflexivity.
  - intros data Hk. apply ValidateValueType_nil_iff. right.
    exists TString. split; [ reflexivity | apply acc_string; exact Hk ].
Qed.

(** Witness of C8: [Int8Kind] rejects an [int64], [IntegerKind] accepts it,
    and [IntegerKind] accepts a string that spells no number. *)
Lemma ValidateValueType_acceptance_contract_witness :
  Int8Kind <> JSONKind /\
  ~ inAcceptanceSet Int8Kind (Iface TInt64 "7") /\
  StringLikeKind IntegerKind /\
  (exists msg, ValidateValueType Int8Kind (Iface TInt64 "7") = Some msg) /\
  ValidateValueType IntegerKind (Iface TString "not a number") = None.
Proof.
  assert (Int8Kind <> JSONKind) as Hne by discriminate.
  assert (~ inAcceptanceSet Int8Kind (Iface TInt64 "7")) as Hout.
  { intros [ty [Hty Hacc]]. injection Hty as <-.
    apply Accepts_acceptsb in Hacc. discriminate Hacc. }
  split; [ exact Hne | ]. split; [ exact Hout | ].
  split; [ constructor | ]. split.
  - exact (proj2 (proj1 (proj1 (ValidateValueType_acceptance_contract
                                  Int8Kind (Iface TInt64 "7")) Hne)) Hout).
  - exact (proj2 (proj2 (proj2 (ValidateValueType_acceptance_contract
                                  IntegerKind nil_any)))
             "not a number"%string sl_integer).
Defined.

(** The kinds [KindForGoValue] can return. *)
Lemma KindForGoValue_range (value : any) :
  In (KindForGoValue value)
     [StringKind; BytesKind; Int8Kind; Uint8Kind; Int16Kind; Uint16Kind;
      Int32Kind; Uint32Kind; Int64Kind; Uint64Kind; Float32Kind; Float64Kind;
      BoolKind; TimeKind; DurationKind; JSONKind].
Proof.
  destruct value as [|ty data]; [ simpl; tauto | ].
  destruct ty as [ | | | | | | | | | | | | | | | | name str ];
    try (vm_compute; tauto).
  destruct str; vm_compute; tauto.
Qed.

(** C9, as stated, fails: the string ["123"] is string-like and a candidate
    for [IntegerKind], and it is inferred as [StringKind], not [JSONKind]. *)
Lemma KindForGoValue_string_is_not_JSONKind :
  ambiguousStringLike (Iface TString "123") /\
  KindForGoValue (Iface TString "123") = StringKind /\
  KindForGoValue (Iface TString "123") <> JSONKind.
Proof.
  split; [ | split ].
  - split; [ | left ]; exists TString;
      (split; [ reflexivity | apply acc_string; constructor ]).
  - reflexivity.
  - discriminate.
Qed.

(** C9, amended.  [KindForGoValue] is total (every value has exactly one
    kind), it never returns [IntegerKind], [DecimalKind],
    [Bech32AddressKind] or [EnumKind] (nor [InvalidKind]); a nil value and
    every value whose type no case of the switch names fall back to
    [JSONKind]; every string-like value (a string or a [fmt.Stringer]) is
    inferred as [StringKind]. *)
Theorem KindForGoValue_total_and_fallback (value : any) :
  (exists! k : Kind, KindForGoValue value = k) /\
  (KindForGoValue value <> IntegerKind /\
   KindForGoValue value <> DecimalKind /\
   KindForGoValue value <> Bech32AddressKind /\
   KindForGoValue value <> EnumKind /\
   KindForGoValue value <> InvalidKind) /\
  (value = nil_any -> KindForGoValue value = JSONKind) /\
  (forall ty, typeOf value = Some ty -> recognized ty = false ->
     KindForGoValue value = JSONKind) /\
  (inAcceptanceSet StringKind value -> KindForGoValue value = StringKind).
Proof.
  split; [ | split; [ | split; [ | split ] ] ].
  - exists (KindForGoValue value). split; [ reflexivity | ].
    intros k Hk. exact Hk.
  - pose proof (KindForGoValue_range value) as Hr. simpl in Hr.
    unfold_kinds. lia.
  - intros ->. reflexivity.
  - intros ty Hty Hrec. destruct value as [|ty' data]; [ discriminate | ].
    injection Hty as ->.
    destruct ty as [ | | | | | | | | | | | | | | | | name str ];
      try discriminate.
    simpl in Hrec. subst str. reflexivity.
  - intros [ty [Hty Hacc]]. destruct value as [|ty' data]; [ discriminate | ].
    injection Hty as ->. apply Accepts_acceptsb in Hacc.
    destruct ty as [ | | | | | | | | | | | | | | | | name str ];
      try discriminate; try reflexivity.
    destruct str; [ reflexivity | discriminate ].
Qed.

(** Witness of C9, amended: a value of a type the switch does not name, and
    a value of a type with a [String] method. *)
Lemma KindForGoValue_total_and_fallback_witness :
  recognized (TNamed "main.Color" false) = false /\
  inAcceptanceSet StringKind (Iface (TNamed "big.Int" true) "12") /\
  KindForGoValue (Iface (TNamed "main.Color" false) "red") = JSONKind /\
  KindForGoValue (Iface (TNamed "big.Int" true) "12") = StringKind.
Proof.
  assert (inAcceptanceSet StringKind (Iface (TNamed "big.Int" true) "12"))
    as Hin.
  { eexists. split; [ reflexivity | ].
    apply acc_stringer; [ constructor | reflexivity ]. }
  split; [ reflexivity | ]. split; [ exact Hin | ]. split.
  - exact (proj1 (proj2 (proj2 (proj2 (KindForGoValue_total_and_fallback
                                         (Iface (TNamed "main.Color" false) "red")))))
             (TNamed "main.Color" false) eq_refl eq_refl).
  - exact (proj2 (proj2 (proj2 (proj2 (KindForGoValue_total_and_fallback
                                         (Iface (TNamed "big.Int" true) "12")))))
             Hin).
Defined.

(** C10.  The kind inferred for a value is a valid kind and accepts that
    value. *)
Theorem KindForGoValue_validates (value : any) :
  Validate (KindForGoValue value) = None /\
  ValidateValueType (KindForGoValue value) value = None.
Proof.
  destruct value as [|ty data]; [ split; reflexivity | ].
  destruct ty as [ | | | | | | | | | | | | | | | | name str ];
    try (split; reflexivity).
  destruct str; split; reflexivity.
Qed.

(** X1.  [KindForGoValue] never returns [TimeKind] or [DurationKind]: a
    [time.Time] and a [time.Duration] implement [fmt.Stringer], so the first
    case of the type switch takes them and they are inferred as
    [StringKind]; the two cases that name them are never reached. *)
Theorem KindForGoValue_time_is_StringKind (value : any) :
  KindForGoValue value <> TimeKind /\
  KindForGoValue value <> DurationKind /\
  (forall data, KindForGoValue (Iface TTime data) = StringKind) /\
  (forall data, KindForGoValue (Iface TDuration data) = StringKind).
Proof.
  split; [ | split; [ | split; intros data; reflexivity ] ].
  - destruct value as [|ty data]; [ discriminate | ].
    destruct ty as [ | | | | | | | | | | | | | | | | name str ];
      try discriminate.
    destruct str; discriminate.
  - destruct value as [|ty data]; [ discriminate | ].
    destruct ty as [ | | | | | | | | | | | | | | | | name str ];
      try discriminate.
    destruct str; discriminate.
Qed.

End KindProperties.

(** * Properties of the sync and sanity guard ([sync.go]) *)

Section GuardProperties.
Import indexer.
Context {T : Types} {E : Externals}.
Variables (listener : Listener World) (mgrOpts : ManagerOptions)
  (moduleFilter : ModuleFilterConfig).

(** On a persisted height of at least 1 and a block height, the 64-bit
    comparison of the guard agrees with the comparison of the numbers. *)
Lemma int64_next_height (lastBlockPersisted H : Z) :
  isInt64 lastBlockPersisted -> 1 <= lastBlockPersisted -> isUint64 H ->
  (int64 (lastBlockPersisted + 1) =? int64 H) = (lastBlockPersisted + 1 =? H).
Proof.
  unfold isInt64, isUint64, int64. intros Hl H1 HH.
  change (2 ^ 63) with 9223372036854775808 in *.
  change (2 ^ 64) with 18446744073709551616 in *.
  destruct (Z.eqb_spec (lastBlockPersisted + 1) H) as [-> | Hne].
  - apply Z.eqb_refl.
  - apply Z.eqb_neq. Z.div_mod_to_equations. lia.
Qed.

Lemma append_assoc (a b c : string) : ((a ++ b) ++ c = a ++ (b ++ c))%string.
Proof. induction a as [|ch a IH]; simpl; [ | rewrite IH ]; reflexivity. Qed.

Lemma append_empty_r (a : string) : (a ++ "" = a)%string.
Proof. induction a as [|ch a IH]; simpl; [ | rewrite IH ]; reflexivity. Qed.

Lemma includes_intro (pre m post : string) : includes (pre ++ m ++ post) m.
Proof. exists pre, post. reflexivity. Qed.

(** The text of the out-of-sync error names both heights. *)
Lemma out_of_sync_message_includes (a b : Z) :
  let msg := ("fatal error: indexer is out of sync, last block persisted: "
              ++ fmt_d a ++ ", current block height: " ++ fmt_d b)%string in
  includes msg (fmt_d a) /\ includes msg (fmt_d b).
Proof.
  intros msg. split.
  - apply includes_intro.
  - exists ("fatal error: indexer is out of sync, last block persisted: "
            ++ fmt_d a ++ ", current block height: ")%string, ""%string.
    unfold msg. rewrite append_empty_r, !append_assoc. reflexivity.
Qed.

(** A callback of the wrapped listener leaves the guard's own state alone. *)
Lemma invoke_lift_frame {D : Type} (slot : option (Handler World D))
    (data : D) (s : GuardWorld) :
  invoke (option_map lift slot) data s =
  (fst (invoke slot data s.(inner)),
   {| initialized := s.(initialized);
      syncCalls := s.(syncCalls);
      inner := snd (invoke slot data s.(inner)) |}).
Proof.
  destruct slot as [h|]; simpl.
  - unfold lift. destruct (h data (inner s)) as [err w]. reflexivity.
  - destruct s; reflexivity.
Qed.

(** C1.  For a target with [lastBlockPersisted >= 1] whose first block start
    has a height [H] with [lastBlockPersisted + 1 <> H], the check and the
    guarded [StartBlock] return the fatal out-of-sync error, whose text
    includes the persisted and the observed height; no catch-up sync is
    made, the wrapped callback is not run and the guard stays unchecked
    (the state is returned as it was). *)
Theorem guard_out_of_sync_is_fatal (lastBlockPersisted : Z)
    (data : StartBlockData) (s : GuardWorld) :
  isInt64 lastBlockPersisted -> isUint64 data.(Height) ->
  1 <= lastBlockPersisted -> lastBlockPersisted + 1 <> data.(Height) ->
  unchecked s ->
  exists msg : string,
    doSyncAndSanityCheck lastBlockPersisted data listener mgrOpts moduleFilter s
      = (Some msg, s) /\
    invoke (addSyncAndSanityCheck lastBlockPersisted listener mgrOpts
              moduleFilter).(StartBlock) data s = (Some msg, s) /\
    msg = ("fatal error: indexer is out of sync, last block persisted: "
           ++ fmt_d lastBlockPersisted ++ ", current block height: "
           ++ fmt_d data.(Height))%string /\
    includes msg (fmt_d lastBlockPersisted) /\
    includes msg (fmt_d data.(Height)).
Proof.
  intros Hl HH H1 Hne Hs.
  assert (doSyncAndSanityCheck lastBlockPersisted data listener mgrOpts
            moduleFilter s
          = (Some ("fatal error: indexer is out of sync, last block persisted: "
                   ++ fmt_d lastBlockPersisted ++ ", current block height: "
                   ++ fmt_d data.(Height))%string, s)) as Hcheck.
  { unfold doSyncAndSanityCheck.
    replace (lastBlockPersisted =? 0) with false
      by (symmetry; apply Z.eqb_neq; lia).
    rewrite (int64_next_height _ _ Hl H1 HH).
    replace (lastBlockPersisted + 1 =? Height data) with false
      by (symmetry; apply Z.eqb_neq; exact Hne).
    reflexivity. }
  eexists. split; [ exact Hcheck | ]. split; [ | split; [ reflexivity | ] ].
  - unfold addSyncAndSanityCheck.
    replace (lastBlockPersisted =? -1) with false
      by (symmetry; apply Z.eqb_neq; lia).
    simpl. unfold guardedStartBlock. rewrite Hs. simpl.
    rewrite Hcheck. reflexivity.
  - apply out_of_sync_message_includes.
Qed.

Lemma addSyncAndSanityCheck_guarded (lastBlockPersisted : Z) :
  lastBlockPersisted <> -1 ->
  (addSyncAndSanityCheck lastBlockPersisted listener mgrOpts
     moduleFilter).(StartBlock)
  = Some (guardedStartBlock lastBlockPersisted listener.(StartBlock) listener
            mgrOpts moduleFilter).
Proof.
  intros Hne. unfold addSyncAndSanityCheck.
  replace (lastBlockPersisted =? -1) with false
    by (symmetry; apply Z.eqb_neq; exact Hne).
  reflexivity.
Qed.

(** What the guarded [StartBlock] does once the check has returned nil. *)
Lemma guardedStartBlock_after_check (lastBlockPersisted : Z)
    (data : StartBlockData) (s s1 : GuardWorld) :
  unchecked s ->
  doSyncAndSanityCheck lastBlockPersisted data listener mgrOpts moduleFilter s
    = (None, s1) ->
  guardedStartBlock lastBlockPersisted listener.(StartBlock) listener mgrOpts
    moduleFilter data s
  = (fst (invoke listener.(StartBlock) data s1.(inner)),
     {| initialized := true;
        syncCalls := s1.(syncCalls);
        inner := snd (invoke listener.(StartBlock) data s1.(inner)) |}).
Proof.
  intros Hs Hcheck. unfold guardedStartBlock. rewrite Hs. simpl.
  rewrite Hcheck. rewrite invoke_lift_frame. reflexivity.
Qed.

(** C2, amended.  For a target with [lastBlockPersisted = 0] whose first
    block start has a height other than 1, exactly one call to
    [decoding.Sync] is made, before the wrapped [StartBlock] runs.  The call
    is [catchUpCall listener mgrOpts moduleFilter]: the target's listener,
    the manager's sync source and resolver, and the function of the target's
    module filter; it names no height and is the same whatever the observed
    height is.  When the sync fails its error is returned, the wrapped
    callback does not run and the guard stays unchecked. *)
Theorem guard_catch_up_sync_once (data : StartBlockData) (s : GuardWorld) :
  data.(Height) <> 1 -> unchecked s ->
  let call := catchUpCall listener mgrOpts moduleFilter in
  let synced := decoding_Sync call s.(inner) in
  let calls := (s.(syncCalls) ++ [call])%list in
  let started := invoke listener.(StartBlock) data (snd synced) in
  doSyncAndSanityCheck 0 data listener mgrOpts moduleFilter s
    = (fst synced,
       {| initialized := false; syncCalls := calls; inner := snd synced |}) /\
  invoke (addSyncAndSanityCheck 0 listener mgrOpts moduleFilter).(StartBlock)
    data s
    = match fst synced with
      | Some err =>
          (Some err,
           {| initialized := false; syncCalls := calls; inner := snd synced |})
      | None =>
          (fst started,
           {| initialized := true; syncCalls := calls; inner := snd started |})
      end /\
  call.(sync_opts).(ModuleFilter) = ToFunction moduleFilter /\
  call.(sync_source) = mgrOpts.(SyncSource).
Proof.
  intros Hne Hs call synced calls started.
  assert (doSyncAndSanityCheck 0 data listener mgrOpts moduleFilter s
          = (fst synced,
             {| initialized := false; syncCalls := calls;
                inner := snd synced |})) as Hcheck.
  { unfold doSyncAndSanityCheck. simpl.
    replace (Height data =? 1) with false
      by (symmetry; apply Z.eqb_neq; exact Hne).
    unfold callSync. fold (catchUpCall listener mgrOpts moduleFilter).
    fold call. fold synced.
    destruct synced as [err w]. rewrite Hs. reflexivity. }
  split; [ exact Hcheck | ]. split; [ | split; reflexivity ].
  rewrite addSyncAndSanityCheck_guarded by discriminate. simpl.
  destruct (fst synced) as [err|] eqn:Herr.
  - unfold guardedStartBlock. rewrite Hs. simpl. rewrite Hcheck.
    reflexivity.
  - rewrite (guardedStartBlock_after_check 0 data s _ Hs Hcheck).
    reflexivity.
Qed.

(** C3.  No catch-up sync is made and the check returns no error
    - for [lastBlockPersisted = -1]: the listener is returned as it is, no
      check is ever run;
    - for [lastBlockPersisted = 0] and a first block start of height 1;
    - for [lastBlockPersisted >= 1] and a first block start of height
      [lastBlockPersisted + 1].
    In the last two cases the guarded [StartBlock] runs the wrapped callback
    on the unchanged state and becomes checked. *)
Theorem guard_in_sync_no_catch_up (lastBlockPersisted : Z)
    (data : StartBlockData) (s : GuardWorld) :
  (lastBlockPersisted = -1 ->
     addSyncAndSanityCheck lastBlockPersisted listener mgrOpts moduleFilter
       = liftListener listener /\
     invoke (addSyncAndSanityCheck lastBlockPersisted listener mgrOpts
               moduleFilter).(StartBlock) data s
       = (fst (invoke listener.(StartBlock) data s.(inner)),
          {| initialized := s.(initialized);
             syncCalls := s.(syncCalls);
             inner := snd (invoke listener.(StartBlock) data s.(inner)) |})) /\
  (unchecked s ->
   (lastBlockPersisted = 0 /\ data.(Height) = 1) \/
   (1 <= lastBlockPersisted /\ isInt64 lastBlockPersisted /\
    lastBlockPersisted + 1 = data.(Height)) ->
     doSyncAndSanityCheck lastBlockPersisted data listener mgrOpts
       moduleFilter s = (None, s) /\
     invoke (addSyncAndSanityCheck lastBlockPersisted listener mgrOpts
               moduleFilter).(StartBlock) data s
       = (fst (invoke listener.(StartBlock) data s.(inner)),
          {| initialized := true;
             syncCalls := s.(syncCalls);
             inner := snd (invoke listener.(StartBlock) data s.(inner)) |})).
Proof.
  split.
  - intros ->. split; [ reflexivity | ].
    unfold addSyncAndSanityCheck. simpl. apply invoke_lift_frame.
  - intros Hs Hcase.
    assert (doSyncAndSanityCheck lastBlockPersisted data listener mgrOpts
              moduleFilter s = (None, s)) as Hcheck.
    { unfold doSyncAndSanityCheck.
      destruct Hcase as [[-> HH] | [H1 [Hl HH]]].
      - simpl. rewrite HH. reflexivity.
      - replace (lastBlockPersisted =? 0) with false
          by (symmetry; apply Z.eqb_neq; lia).
        rewrite <- HH. rewrite Z.eqb_refl. reflexivity. }
    split; [ exact Hcheck | ].
    rewrite addSyncAndSanityCheck_guarded
      by (destruct Hcase as [[-> _] | [H1 _]]; lia).
    simpl. apply (guardedStartBlock_after_check _ _ _ _ Hs Hcheck).
Qed.

(** Deliveries to the wrapped listener never touch the guard's own state. *)
Lemma deliver_lift_frame (events : list StartBlockData) (s : GuardWorld) :
  (snd (deliverStartBlocks (liftListener listener) events s)).(initialized)
    = s.(initialized) /\
  (snd (deliverStartBlocks (liftListener listener) events s)).(syncCalls)
    = s.(syncCalls).
Proof.
  revert s. induction events as [|data rest IH]; intros s; simpl.
  - split; reflexivity.
  - rewrite invoke_lift_frame.
    match goal with
    | |- context [deliverStartBlocks _ rest ?s1] =>
        specialize (IH s1); destruct (deliverStartBlocks _ rest s1) as [errs s2]
    end.
    simpl in *. exact IH.
Qed.

(** A checked guard hands a block start straight to the wrapped callback. *)
Lemma guarded_checked_passthrough (lastBlockPersisted : Z)
    (data : StartBlockData) (s : GuardWorld) :
  s.(initialized) = true ->
  invoke (addSyncAndSanityCheck lastBlockPersisted listener mgrOpts
            moduleFilter).(StartBlock) data s
  = invoke (liftListener listener).(StartBlock) data s.
Proof.
  intros Hs. destruct (Z.eq_dec lastBlockPersisted (-1)) as [-> | Hne].
  - reflexivity.
  - rewrite (addSyncAndSanityCheck_guarded _ Hne). simpl.
    unfold guardedStartBlock. rewrite Hs. reflexivity.
Qed.

Lemma deliver_checked_passthrough (lastBlockPersisted : Z)
    (events : list StartBlockData) (s : GuardWorld) :
  s.(initialized) = true ->
  deliverStartBlocks
    (addSyncAndSanityCheck lastBlockPersisted listener mgrOpts moduleFilter)
    events s
  = deliverStartBlocks (liftListener listener) events s.
Proof.
  revert s. induction events as [|data rest IH]; intros s Hs; simpl.
  - reflexivity.
  - rewrite (guarded_checked_passthrough _ _ _ Hs).
    simpl. rewrite invoke_lift_frame.
    rewrite IH by exact Hs. reflexivity.
Qed.

(** C4, amended.  Once the check of the first block start has returned no
    error (or for a target with [lastBlockPersisted = -1], which has no
    check), every later block start is handed straight to the [StartBlock]
    callback of the wrapped listener: the deliveries are those of the wrapped
    listener itself, no further call to [decoding.Sync] is made, and the
    guard stays checked. *)
Theorem guard_checks_once_after_success (lastBlockPersisted : Z)
    (first : StartBlockData) (rest : list StartBlockData) (s : GuardWorld) :
  unchecked s ->
  lastBlockPersisted = -1 \/
  fst (doSyncAndSanityCheck lastBlockPersisted first listener mgrOpts
         moduleFilter s) = None ->
  let g :=
    addSyncAndSanityCheck lastBlockPersisted listener mgrOpts moduleFilter in
  let s1 := snd (invoke g.(StartBlock) first s) in
  deliverStartBlocks g rest s1
    = deliverStartBlocks (liftListener listener) rest s1 /\
  (snd (deliverStartBlocks g rest s1)).(syncCalls) = s1.(syncCalls) /\
  (lastBlockPersisted <> -1 ->
     s1.(initialized) = true /\
     (snd (deliverStartBlocks g rest s1)).(initialized) = true).
Proof.
  intros Hs Hcase g s1.
  destruct (Z.eq_dec lastBlockPersisted (-1)) as [Heq | Hne].
  - subst lastBlockPersisted. split; [ reflexivity | ].
    split; [ apply deliver_lift_frame | ]. intros Hne. contradiction.
  - destruct Hcase as [Heq | Hcheck]; [ contradiction | ].
    assert (s1.(initialized) = true) as Hs1.
    { unfold s1, g. rewrite (addSyncAndSanityCheck_guarded _ Hne). simpl.
      destruct (doSyncAndSanityCheck lastBlockPersisted first listener mgrOpts
                  moduleFilter s) as [err s'] eqn:Hrun.
      simpl in Hcheck. subst err.
      rewrite (guardedStartBlock_after_check _ _ _ _ Hs Hrun). reflexivity. }
    unfold g. rewrite (deliver_checked_passthrough _ _ _ Hs1).
    destruct (deliver_lift_frame rest s1) as [Hi Hc].
    split; [ reflexivity | ]. split; [ exact Hc | ].
    intros _. split; [ exact Hs1 | ]. rewrite Hi. exact Hs1.
Qed.

End GuardProperties.

(** ** The guard on the journalling backend *)

Section GuardOnTheJournal.
Import indexer demo.
#[local] Existing Instance demoTypes.
#[local] Existing Instance demoExternals.

Lemma isInt64_5 : isInt64 5.
Proof. unfold isInt64. split; [ discriminate | reflexivity ]. Qed.

(** Witness of C1: persisted height 5, first observed height 7. *)
Lemma guard_out_of_sync_is_fatal_witness :
  isInt64 5 /\ isUint64 7 /\ 1 <= 5 /\ 5 + 1 <> 7 /\
  unchecked freshGuard /\
  exists msg : string,
    invoke (guarded 5).(StartBlock) (block 7) freshGuard
      = (Some msg, freshGuard) /\
    includes msg "5" /\ includes msg "7".
Proof.
  assert (isUint64 7) as H7 by (split; [ discriminate | reflexivity ]).
  assert (1 <= 5) as H1 by discriminate.
  assert (5 + 1 <> 7) as Hne by discriminate.
  assert (unchecked freshGuard) as Hs by reflexivity.
  repeat (split; [ assumption || exact isInt64_5 | ]).
  destruct (@guard_out_of_sync_is_fatal demoTypes demoExternals
              journalListener demoOptions ["bank"] 5 (block 7)
              freshGuard isInt64_5 H7 H1 Hne Hs)
    as [msg [_ [Hrun [_ [Hp Hh]]]]].
  exists msg. repeat split; assumption.
Defined.

(** Witness of C2: nothing persisted, first observed height 10.  One sync
    call is journalled, then block 10 reaches the backend. *)
Lemma guard_catch_up_sync_once_witness :
  (block 10).(Height) <> 1 /\ unchecked freshGuard /\
  invoke (guarded 0).(StartBlock) (block 10) freshGuard
    = (None,
       {| initialized := true;
          syncCalls := [catchUpCall journalListener demoOptions ["bank"]];
          inner := ["sync"; "block 10"] |}).
Proof.
  assert ((block 10).(Height) <> 1) as Hne by discriminate.
  assert (unchecked freshGuard) as Hs by reflexivity.
  split; [ exact Hne | ]. split; [ exact Hs | ].
  destruct (@guard_catch_up_sync_once demoTypes demoExternals journalListener
              demoOptions ["bank"] (block 10) freshGuard Hne Hs)
    as [_ [Hrun _]].
  exact Hrun.
Defined.

(** C2, as stated, fails: the sync call made for a first height of 10 and
    the one made for a first height of 20 are the same call, so no reading
    of a call can yield the bound [H - 1] (9 for the one, 19 for the other). *)
Lemma catch_up_sync_names_no_height :
  let calls (h : Z) :=
    (snd (invoke (guarded 0).(StartBlock) (block h) freshGuard)).(syncCalls) in
  calls 10 = calls 20 /\
  List.length (calls 10) = 1%nat /\
  ~ (exists upTo : SyncCall -> Z,
       Forall (fun c => upTo c = 10 - 1) (calls 10) /\
       Forall (fun c => upTo c = 20 - 1) (calls 20)).
Proof.
  intros calls.
  assert (calls 10 = [catchUpCall journalListener demoOptions ["bank"]])
    as H10 by reflexivity.
  assert (calls 20 = [catchUpCall journalListener demoOptions ["bank"]])
    as H20 by reflexivity.
  rewrite H10, H20. split; [ reflexivity | ]. split; [ reflexivity | ].
  intros [upTo [Ha Hb]].
  apply Forall_inv in Ha. apply Forall_inv in Hb. rewrite Ha in Hb.
  discriminate Hb.
Qed.

(** Witness of C3: persisted height 5, first observed height 6. *)
Lemma guard_in_sync_no_catch_up_witness :
  unchecked freshGuard /\
  (1 <= 5 /\ isInt64 5 /\ 5 + 1 = (block 6).(Height)) /\
  guarded (-1) = liftListener journalListener /\
  invoke (guarded 5).(StartBlock) (block 6) freshGuard
    = (None,
       {| initialized := true; syncCalls := []; inner := ["block 6"] |}).
Proof.
  assert (unchecked freshGuard) as Hs by reflexivity.
  assert (1 <= 5 /\ isInt64 5 /\ 5 + 1 = (block 6).(Height)) as Hcase
    by (split; [ discriminate | split; [ exact isInt64_5 | reflexivity ] ]).
  split; [ exact Hs | ]. split; [ exact Hcase | ].
  split.
  - exact (proj1 (proj1 (@guard_in_sync_no_catch_up demoTypes demoExternals
                           journalListener demoOptions ["bank"] (-1) (block 6)
                           freshGuard) eq_refl)).
  - exact (proj2 (proj2 (@guard_in_sync_no_catch_up demoTypes demoExternals
                           journalListener demoOptions ["bank"] 5 (block 6)
                           freshGuard) Hs (or_intror Hcase))).
Defined.

(** C4, as stated, fails: with persisted height 5, a first block start of
    height 7 is handled by returning the fatal error; a second block start
    is checked again and refused again, where the wrapped [StartBlock], run
    directly, would have journalled the block and returned nil. *)
Lemma guard_rechecks_after_failure :
  let s1 := snd (invoke (guarded 5).(StartBlock) (block 7) freshGuard) in
  fst (invoke (guarded 5).(StartBlock) (block 7) s1)
    = Some "fatal error: indexer is out of sync, last block persisted: 5, current block height: 7"%string /\
  invoke (liftListener journalListener).(StartBlock) (block 7) s1
    = (None,
       {| initialized := false; syncCalls := []; inner := ["block 7"] |}) /\
  invoke (guarded 5).(StartBlock) (block 7) s1
    <> invoke (liftListener journalListener).(StartBlock) (block 7) s1.
Proof.
  intros s1. split; [ reflexivity | ]. split; [ reflexivity | ].
  intros Heq. apply (f_equal fst) in Heq. discriminate Heq.
Qed.

(** Witness of C4: persisted height 5, block starts 6, 7 and 8. *)
Lemma guard_checks_once_after_success_witness :
  unchecked freshGuard /\
  fst (doSyncAndSanityCheck 5 (block 6) journalListener demoOptions ["bank"]
         freshGuard) = None /\
  deliverStartBlocks (guarded 5) [block 7; block 8]
    (snd (invoke (guarded 5).(StartBlock) (block 6) freshGuard))
  = ([None; None],
     {| initialized := true;
        syncCalls := [];
        inner := ["block 6"; "block 7"; "block 8"] |}).
Proof.
  assert (unchecked freshGuard) as Hs by reflexivity.
  assert (fst (doSyncAndSanityCheck 5 (block 6) journalListener demoOptions
                 ["bank"] freshGuard) = None) as Hcheck by reflexivity.
  split; [ exact Hs | ]. split; [ exact Hcheck | ].
  destruct (@guard_checks_once_after_success demoTypes demoExternals
              journalListener demoOptions ["bank"] 5 (block 6)
              [block 7; block 8] freshGuard Hs (or_intror Hcheck))
    as [Hrun _].
  unfold guarded. rewrite Hrun. reflexivity.
Defined.

End GuardOnTheJournal.

(** * Properties of the manager ([StartManager]) *)

Section ManagerProperties.
Import indexer.
Context {T : Types} {E : Externals}.
Variable opts : ManagerOptions.

Lemma startTarget_inr (logger : logutil_Logger) (ctx : context_Context)
    (targetName : string) (targetCfg : Config) (w w' : World)
    (l : Listener GuardWorld) (f : ModuleFilterConfig) :
  startTarget opts logger ctx targetName targetCfg w
    = (Returned (inr (l, f)), w') ->
  builtFor opts (targetName, targetCfg) l /\ f = Modules targetCfg.(Filter).
Proof.
  unfold startTarget, builtFor. simpl.
  destruct (indexerRegistry (Type_ targetCfg)) as [init|]; [ | discriminate ].
  destruct (FilterConfig_Validate (Filter targetCfg)) as [err|];
    [ discriminate | ].
  destruct (childLoggerFor logger targetName) as [childLogger|];
    [ | discriminate ].
  match goal with
  | |- context [init ?p ?w0] =>
      destruct (init p w0) as [[initRes [err|]] w2] eqn:Hinit;
        [ discriminate | ];
      intros Hret; injection Hret as Hl Hf Hw; split; [ | congruence ];
      exists init, p, w0, w2, initRes
  end.
  repeat split; try reflexivity; try assumption. congruence.
Qed.

Lemma startTargets_inr (logger : logutil_Logger) (ctx : context_Context)
    (targets : list (string * Config)) :
  forall (listeners listeners' : list (Listener GuardWorld))
         (filters filters' : list ModuleFilterConfig) (w w' : World),
    startTargets opts logger ctx targets listeners filters w
      = (Returned (inr (listeners', filters')), w') ->
    exists built : list (Listener GuardWorld),
      listeners' = (listeners ++ built)%list /\
      Forall2 (builtFor opts) targets built /\
      filters' = (filters ++ map filterOf targets)%list.
Proof.
  induction targets as [|[targetName targetCfg] rest IH];
    intros listeners listeners' filters filters' w w'; simpl.
  - intros Hret. injection Hret as <- <- _. exists []. rewrite !app_nil_r.
    repeat split. constructor.
  - destruct (startTarget opts logger ctx targetName targetCfg w)
      as [[[err | [l f]] | ] w1] eqn:Hone; [ discriminate | | discriminate ].
    intros Hrest. apply startTarget_inr in Hone. destruct Hone as [Hb ->].
    apply IH in Hrest. destruct Hrest as [built [-> [Hall ->]]].
    exists (l :: built). rewrite <- !app_assoc. simpl.
    repeat split. constructor; assumption.
Qed.

(** The loop panics only at a target for which scoping the logger gives no
    logger. *)
Lemma startTargets_panic (logger : logutil_Logger) (ctx : context_Context)
    (targets : list (string * Config)) :
  forall (listeners : list (Listener GuardWorld))
         (filters : list ModuleFilterConfig) (w w' : World),
    startTargets opts logger ctx targets listeners filters w = (Panicked, w') ->
    exists targetName targetCfg,
      In (targetName, targetCfg) targets /\
      childLoggerFor logger targetName = None.
Proof.
  induction targets as [|[targetName targetCfg] rest IH];
    intros listeners filters w w'; simpl; [ discriminate | ].
  destruct (startTarget opts logger ctx targetName targetCfg w)
    as [[[err | [l f]] | ] w1] eqn:Hone.
  - discriminate.
  - intros Hrest. apply IH in Hrest.
    destruct Hrest as [name [cfg [Hin Hnone]]].
    exists name, cfg. split; [ right; exact Hin | exact Hnone ].
  - intros _. exists targetName, targetCfg. split; [ left; reflexivity | ].
    unfold startTarget in Hone.
    destruct (indexerRegistry (Type_ targetCfg)) as [init|];
      [ | discriminate ].
    destruct (FilterConfig_Validate (Filter targetCfg)) as [err|];
      [ discriminate | ].
    destruct (childLoggerFor logger targetName) as [childLogger|];
      [ | reflexivity ].
    match type of Hone with
    | context [init ?p ?w0] => destruct (init p w0) as [[initRes [err|]] w2]
    end; discriminate.
Qed.


(** [StartManager] returns a nil error with a fully built result, or returns
    an error with the zero result, or panics on the scoped logger. *)
Lemma StartManager_outcome (w : World) :
  (exists res w',
     StartManager opts w = (Returned (res, None), w') /\ fullyBuilt opts res) \/
  (exists err w',
     StartManager opts w = (Returned (zeroManagerResult, Some err), w')) \/
  (exists w',
     StartManager opts w = (Panicked, w') /\
     exists cfg targetName targetCfg,
       unmarshalConfig opts.(Config_) = res_with cfg None /\
       In (targetName, targetCfg) cfg.(Target) /\
       childLoggerFor (managerLogger opts) targetName = None).
Proof.
  unfold StartManager. fold (managerLogger opts).
  destruct (unmarshalConfig (Config_ opts)) as [err | cfg [err|]] eqn:Hcfg.
  - right. left. eexists. eexists. reflexivity.
  - right. left. eexists. eexists. reflexivity.
  - fold (managerContext opts).
    match goal with
    | |- context [startTargets opts ?lg ?ctx ?ts [] [] ?w0] =>
        destruct (startTargets opts lg ctx ts [] [] w0)
          as [[[err | [listeners filters]] | ] w1] eqn:Hloop
    end.
    + right. left. eexists. eexists. reflexivity.
    + left. eexists. eexists. split; [ reflexivity | ].
      apply startTargets_inr in Hloop.
      destruct Hloop as [built [-> [Hall ->]]]. simpl.
      exists cfg, built.
      split; [ exact Hcfg | ]. split; [ exact Hall | reflexivity ].
    + right. right. exists w1. split; [ reflexivity | ].
      apply startTargets_panic in Hloop.
      destruct Hloop as [name [tc [Hin Hnone]]].
      exists cfg, name, tc.
      split; [ reflexivity | ]. split; [ exact Hin | exact Hnone ].
Qed.

Lemma StartManager_success (w w' : World) (res : ManagerResult) :
  StartManager opts w = (Returned (res, None), w') -> fullyBuilt opts res.
Proof.
  intros Hrun.
  destruct (StartManager_outcome w)
    as [[res0 [w0 [H0 Hb]]] | [[err [w0 H0]] | [w0 [H0 _]]]];
    rewrite H0 in Hrun.
  - injection Hrun as <- _. exact Hb.
  - discriminate Hrun.
  - discriminate Hrun.
Qed.

(** C5, amended.  When [StartManager] succeeds, the listener it hands to the
    multiplexer for each target is the sync guard around the module filter
    around the listener of the initializer: the filter is applied first and
    the guard second.  A block start therefore reaches the guard first and
    the filtered listener after it; the other events go to the filtered
    listener at once. *)
Theorem StartManager_guard_wraps_filter (w w' : World) (res : ManagerResult) :
  StartManager opts w = (Returned (res, None), w') ->
  exists (cfg : ManagerConfig) (listeners : list (Listener GuardWorld)),
    unmarshalConfig opts.(Config_) = res_with cfg None /\
    res.(mr_Listener)
      = ModuleFilterConfig_Apply res.(mr_ModuleFilter)
          (AsyncListenerMux (managerContext opts) listeners) /\
    Forall2
      (fun target l =>
         exists (init : InitFunc) (params : InitParams) (w1 w2 : World)
                (initRes : InitResult),
           indexerRegistry (snd target).(Type_) = Some init /\
           init params w1 = (initRes, None, w2) /\
           let filtered :=
             FilterConfig_Apply (snd target).(Filter) initRes.(ir_Listener) in
           l = addSyncAndSanityCheck initRes.(LastBlockPersisted) filtered
                 opts (filterOf target) /\
           (initRes.(LastBlockPersisted) <> -1 ->
              l.(StartBlock)
                = Some (guardedStartBlock initRes.(LastBlockPersisted)
                          filtered.(StartBlock) filtered opts
                          (filterOf target))) /\
           l.(OnKVPair) = option_map lift filtered.(OnKVPair) /\
           l.(Commit) = option_map lift filtered.(Commit))
      cfg.(Target) listeners.
Proof.
  intros Hrun. apply StartManager_success in Hrun.
  destruct Hrun as [cfg [listeners [Hcfg [Hall Hres]]]].
  exists cfg, listeners. split; [ exact Hcfg | ].
  split; [ rewrite Hres; reflexivity | ].
  revert Hall. apply Forall2_impl. intros target l Hb.
  destruct Hb as [init [params [w1 [w2 [initRes [Hreg [_ [_ [Hinit Hl]]]]]]]]].
  exists init, params, w1, w2, initRes.
  split; [ exact Hreg | ]. split; [ exact Hinit | ].
  simpl. split; [ exact Hl | ]. subst l. split.
  - intros Hne. apply addSyncAndSanityCheck_guarded. exact Hne.
  - unfold addSyncAndSanityCheck.
    destruct (LastBlockPersisted initRes =? -1); split; reflexivity.
Qed.


End ManagerProperties.

(** ** The manager on the journalling backend *)

Section ManagerOnTheJournal.
Import indexer demo.
#[local] Existing Instance demoTypes.
#[local] Existing Instance demoExternals.

(** [StartManager] on the one-target configuration. *)
Lemma StartManager_bank :
  StartManager demoOptions []
  = (Returned ({| mr_Listener :=
                    applyModuleFilter ["bank"]
                      (AsyncListenerMux tt [builtForBank]);
                  mr_ModuleFilter := ["bank"] |}, None), []).
Proof. reflexivity. Qed.

(** C5, as stated, fails: the listener built for the target is the guard
    around the filtered journal, not the filter around the guarded journal.
    The two differ in the listener the catch-up sync receives: the first
    drops a replayed write of a module the filter excludes, the second
    journals it. *)
Lemma manager_applies_filter_before_guard :
  fst (startTarget demoOptions "" tt "bank-only" bankTarget [])
    = Returned (inr (builtForBank, ["bank"])) /\
  replayedStakingWrite builtForBank = [] /\
  replayedStakingWrite filterAroundGuard = ["write staking"] /\
  builtForBank <> filterAroundGuard.
Proof.
  split; [ reflexivity | ]. split; [ reflexivity | ]. split; [ reflexivity | ].
  intros Heq. apply (f_equal replayedStakingWrite) in Heq.
  discriminate Heq.
Qed.

(** Witness of C5: the one-target configuration. *)
Lemma StartManager_guard_wraps_filter_witness :
  StartManager demoOptions []
  = (Returned ({| mr_Listener :=
                    applyModuleFilter ["bank"]
                      (AsyncListenerMux tt [builtForBank]);
                  mr_ModuleFilter := ["bank"] |}, None), []) /\
  exists listeners : list (Listener GuardWorld),
    Forall2 (fun (target : string * Config) l =>
               exists initRes : InitResult,
                 l = addSyncAndSanityCheck initRes.(LastBlockPersisted)
                       (applyModuleFilter (snd target).(Filter)
                          initRes.(ir_Listener))
                       demoOptions (snd target).(Filter))
            bankConfig.(Target) listeners.
Proof.
  split; [ exact StartManager_bank | ].
  destruct (@StartManager_guard_wraps_filter demoTypes demoExternals
              demoOptions [] [] _ StartManager_bank)
    as [cfg [listeners [Hcfg [_ Hall]]]].
  exists listeners.
  assert (cfg = bankConfig) as -> by (injection Hcfg as <-; reflexivity).
  revert Hall. apply Forall2_impl. intros target l Hb.
  destruct Hb as [init [params [w1 [w2 [initRes [_ [_ [Hl _]]]]]]]].
  exists initRes. exact Hl.
Defined.



End ManagerOnTheJournal.

(** ** The manager with a logger that scopes to no logger *)

Section ManagerOnTheScopedLogger.
Import indexer demo demo_scoped.
#[local] Existing Instance demoTypes.
#[local] Existing Instance scopedExternals.


End ManagerOnTheScopedLogger.

(** ** Further properties of the value kinds *)

(** The constants of [Kind] as numbers, everywhere. *)
Ltac kinds_as_numbers :=
  unfold indexerbase.InvalidKind, indexerbase.JSONKind, indexerbase.StringKind,
    indexerbase.BytesKind, indexerbase.Int8Kind, indexerbase.Uint8Kind,
    indexerbase.Int16Kind, indexerbase.Uint16Kind, indexerbase.Int32Kind,
    indexerbase.Uint32Kind, indexerbase.Int64Kind, indexerbase.Uint64Kind,
    indexerbase.IntegerKind, indexerbase.DecimalKind, indexerbase.BoolKind,
    indexerbase.TimeKind, indexerbase.DurationKind, indexerbase.Float32Kind,
    indexerbase.Float64Kind, indexerbase.Bech32AddressKind,
    indexerbase.EnumKind in *.

(** One goal for a kind outside the constants (with [H] saying so and every
    comparison of [t] with a constant rewritten to [false]), then one goal
    per constant. *)
Ltac split_kind t H :=
  destruct (Kind_cases t) as [H | H];
  [ kinds_as_numbers;
    repeat match goal with
    | |- context [t =? ?c] =>
        replace (t =? c) with false by (symmetry; apply Z.eqb_neq; lia)
    end
  | simpl in H;
    repeat (destruct H as [H | H]; [ subst t | ]); [ .. | contradiction ] ].

Section KindFurtherProperties.
Import indexerbase.

(** X2.  A kind has a name exactly when it is valid: [String] returns the
    empty string for [InvalidKind] and for every kind outside the constants,
    and a non-empty name for every kind [Validate] accepts. *)
Theorem Kind_String_empty_iff_invalid (t : Kind) :
  (Kind_String t = "" <-> exists msg, Validate t = Some msg) /\
  (Kind_String t <> "" <-> Validate t = None).
Proof.
  unfold Kind_String, Validate.
  split_kind t Hk.
  1: { assert (((t <=? 0) = true) \/ ((t <=? 0) = false /\ (t >? 20) = true))
         as Hv.
       { destruct Hk as [Hk | Hk].
         - left. apply Z.leb_le. exact Hk.
         - right. split; [ apply Z.leb_gt; lia | apply Z.gtb_lt; exact Hk ]. }
       destruct Hv as [-> | [-> ->]]; split; split;
         solve [ intros _; eexists; reflexivity
               | reflexivity
               | intros H; exfalso; apply H; reflexivity
               | discriminate ]. }
  all: split; split;
    solve [ discriminate | reflexivity | intros [msg H]; discriminate H ].
Qed.

Lemma Validate_nil_cases (t : Kind) :
  Validate t = None ->
  In t [StringKind; BytesKind; Int8Kind; Uint8Kind; Int16Kind; Uint16Kind;
        Int32Kind; Uint32Kind; Int64Kind; Uint64Kind; IntegerKind;
        DecimalKind; BoolKind; TimeKind; DurationKind; Float32Kind;
        Float64Kind; Bech32AddressKind; EnumKind; JSONKind].
Proof.
  intros Hv. destruct (Kind_cases t) as [Hout | Hin]; [ | exact Hin ].
  exfalso. unfold Validate in Hv.
  destruct (Z.leb_spec t InvalidKind) as [Hle | Hgt]; [ discriminate | ].
  destruct (t >? JSONKind) eqn:Hk; [ discriminate | ].
  rewrite Z.gtb_ltb in Hk. apply Z.ltb_ge in Hk. lia.
Qed.

(** X3.  The names of the valid kinds are pairwise distinct: two valid kinds
    with the same [String] are the same kind. *)
Theorem Kind_String_injective (a b : Kind) :
  Validate a = None -> Validate b = None ->
  Kind_String a = Kind_String b -> a = b.
Proof.
  intros Ha Hb. apply Validate_nil_cases in Ha. apply Validate_nil_cases in Hb.
  simpl in Ha, Hb.
  repeat (destruct Ha as [Ha | Ha]; [ subst a | ]); [ .. | contradiction ];
    repeat (destruct Hb as [Hb | Hb]; [ subst b | ]); try contradiction;
    intros Heq; try reflexivity; discriminate Heq.
Qed.

Lemma Kind_String_injective_witness :
  Validate Int64Kind = None /\ Validate (3 + 6) = None /\
  Kind_String Int64Kind = Kind_String (3 + 6) /\ Int64Kind = 3 + 6.
Proof.
  assert (Validate Int64Kind = None) as Ha by reflexivity.
  assert (Validate (3 + 6) = None) as Hb by reflexivity.
  assert (Kind_String Int64Kind = Kind_String (3 + 6)) as Heq by reflexivity.
  repeat (split; [ assumption | ]).
  exact (Kind_String_injective Int64Kind (3 + 6) Ha Hb Heq).
Defined.

(** X4.  On a kind that [Validate] refuses, [ValidateValueType] refuses every
    value, with the error [invalid type: <kind>]; so a kind that accepts some
    value is a valid kind. *)
Theorem ValidateValueType_invalid_kind (t : Kind) (value : any) :
  (exists msg, Validate t = Some msg) ->
  ValidateValueType t value = Some ("invalid type: " ++ fmt_d t)%string.
Proof.
  intros [msg Hv].
  destruct (Kind_cases t) as [Hout | Hin].
  - unfold ValidateValueType. kinds_as_numbers.
    repeat match goal with
    | |- context [t =? ?c] =>
        replace (t =? c) with false by (symmetry; apply Z.eqb_neq; lia)
    end.
    reflexivity.
  - exfalso. simpl in Hin.
    repeat (destruct Hin as [Hin | Hin]; [ subst t; discriminate Hv | ]).
    contradiction.
Qed.

Lemma ValidateValueType_invalid_kind_witness :
  (exists msg, Validate 21 = Some msg) /\
  ValidateValueType 21 (Iface TString "x") = Some "invalid type: 21"%string.
Proof.
  assert (exists msg, Validate 21 = Some msg) as Hv
    by (eexists; reflexivity).
  split; [ exact Hv | ].
  exact (ValidateValueType_invalid_kind 21 (Iface TString "x") Hv).
Defined.

(** X5.  [ValidateValueType] has no notion of a null value: a nil interface
    value is refused by every kind but [JSONKind]. *)
Theorem ValidateValueType_nil_value (t : Kind) :
  ValidateValueType t nil_any = None <-> t = JSONKind.
Proof.
  split.
  - intros Hnil. apply ValidateValueType_nil_iff in Hnil.
    destruct Hnil as [Hj | [ty [Hty _]]]; [ exact Hj | discriminate Hty ].
  - intros ->. reflexivity.
Qed.

(** X6.  [StringKind], [DecimalKind] and [EnumKind] treat every value alike
    (same verdict, same error text); [IntegerKind] and [Bech32AddressKind]
    accept every value those accept. *)
Theorem string_like_kinds_agree (value : any) :
  ValidateValueType DecimalKind value = ValidateValueType StringKind value /\
  ValidateValueType EnumKind value = ValidateValueType StringKind value /\
  (ValidateValueType StringKind value = None ->
     ValidateValueType IntegerKind value = None /\
     ValidateValueType Bech32AddressKind value = None).
Proof.
  split; [ reflexivity | ]. split; [ reflexivity | ].
  destruct value as [|ty data]; [ discriminate | ].
  destruct ty as [ | | | | | | | | | | | | | | | | name str ];
    try discriminate; try (intros _; split; reflexivity).
  destruct str; [ intros _; split; reflexivity | discriminate ].
Qed.

Lemma string_like_kinds_agree_witness :
  ValidateValueType StringKind (Iface TDuration "1s") = None /\
  ValidateValueType IntegerKind (Iface TDuration "1s") = None /\
  ValidateValueType Bech32AddressKind (Iface TDuration "1s") = None.
Proof.
  assert (ValidateValueType StringKind (Iface TDuration "1s") = None) as Hs
    by reflexivity.
  split; [ exact Hs | ].
  exact (proj2 (proj2 (string_like_kinds_agree (Iface TDuration "1s"))) Hs).
Defined.

(** No kind but [JSONKind] accepts a value of these types. *)
Lemma only_JSONKind_accepts (t : Kind) (ty : GoType) :
  ty = TRawMessage \/ (exists name, ty = TNamed name false) ->
  acceptsb t ty = false.
Proof.
  intros Hty. unfold acceptsb, stringLikeb, exactTypeOf.
  destruct Hty as [-> | [name ->]];
    split_kind t Hk; reflexivity.
Qed.

(** X7.  [KindForGoValue] falls back to [JSONKind] exactly for the values
    that no other kind accepts: whenever some kind besides [JSONKind] would
    accept the value, a more specific kind is inferred. *)
Theorem KindForGoValue_JSONKind_iff_only_choice (value : any) :
  KindForGoValue value = JSONKind <->
  (forall t, ValidateValueType t value = None -> t = JSONKind).
Proof.
  split.
  - intros Hj t Hacc. apply ValidateValueType_nil_iff in Hacc.
    destruct Hacc as [Ht | [ty [Hty Hacc]]]; [ exact Ht | ].
    exfalso. apply Accepts_acceptsb in Hacc.
    destruct value as [|ty' data]; [ discriminate Hty | ].
    injection Hty as ->.
    destruct ty as [ | | | | | | | | | | | | | | | | name str ];
      try discriminate Hj.
    + rewrite only_JSONKind_accepts in Hacc by (left; reflexivity).
      discriminate Hacc.
    + destruct str; [ discriminate Hj | ].
      rewrite only_JSONKind_accepts in Hacc by (right; eexists; reflexivity).
      discriminate Hacc.
  - intros Honly. apply Honly.
    destruct value as [|ty data]; [ reflexivity | ].
    destruct ty as [ | | | | | | | | | | | | | | | | name str ];
      try reflexivity.
    destruct str; reflexivity.
Qed.

End KindFurtherProperties.

(** ** Further properties of the sync and sanity guard *)

Section GuardFurtherProperties.
Import indexer.
Context {T : Types} {E : Externals}.
Variables (listener : Listener World) (mgrOpts : ManagerOptions)
  (moduleFilter : ModuleFilterConfig).

Local Abbreviation guardedListener lastBlockPersisted :=
  (addSyncAndSanityCheck lastBlockPersisted listener mgrOpts moduleFilter).
Local Abbreviation theCatchUpCall := (catchUpCall listener mgrOpts moduleFilter).

Lemma doSync_zero_catch_up (data : StartBlockData) (s : GuardWorld) :
  data.(Height) <> 1 ->
  doSyncAndSanityCheck 0 data listener mgrOpts moduleFilter s
  = callSync theCatchUpCall s.
Proof.
  intros Hne. unfold doSyncAndSanityCheck. simpl.
  replace (Height data =? 1) with false
    by (symmetry; apply Z.eqb_neq; exact Hne).
  reflexivity.
Qed.

Lemma doSync_without_call (lastBlockPersisted : Z) (data : StartBlockData)
    (s : GuardWorld) :
  lastBlockPersisted <> 0 \/ data.(Height) = 1 ->
  snd (doSyncAndSanityCheck lastBlockPersisted data listener mgrOpts
         moduleFilter s) = s.
Proof.
  intros Hcase. unfold doSyncAndSanityCheck.
  destruct (Z.eqb_spec lastBlockPersisted 0) as [H0 | H0].
  - destruct Hcase as [Hne | H1]; [ contradiction | ].
    rewrite H1. reflexivity.
  - destruct (negb _); reflexivity.
Qed.

Lemma guarded_unchecked_run (lastBlockPersisted : Z) (data : StartBlockData)
    (s : GuardWorld) :
  unchecked s -> lastBlockPersisted <> -1 ->
  invoke (guardedListener lastBlockPersisted).(StartBlock) data s
  = match doSyncAndSanityCheck lastBlockPersisted data listener mgrOpts
            moduleFilter s with
    | (Some err, s1) => (Some err, s1)
    | (None, s1) =>
        invoke (option_map lift listener.(StartBlock)) data
          (setInitialized true s1)
    end.
Proof.
  intros Hs Hne. rewrite (addSyncAndSanityCheck_guarded _ _ _ _ Hne). simpl.
  unfold guardedStartBlock. rewrite Hs. reflexivity.
Qed.

(** X8.  The guarded [StartBlock] calls [decoding.Sync] in one situation
    only: nothing persisted yet ([lastBlockPersisted = 0]), guard still
    unchecked, height other than 1.  Then it adds exactly one call; in every
    other situation (whatever the heights, also when the target is behind)
    it adds none. *)
Theorem guard_syncs_only_when_nothing_persisted (lastBlockPersisted : Z)
    (data : StartBlockData) (s : GuardWorld) :
  let after :=
    snd (invoke (guardedListener lastBlockPersisted).(StartBlock) data s) in
  (lastBlockPersisted = 0 /\ unchecked s /\ data.(Height) <> 1 ->
     after.(syncCalls) = (s.(syncCalls) ++ [theCatchUpCall])%list) /\
  (~ (lastBlockPersisted = 0 /\ unchecked s /\ data.(Height) <> 1) ->
     after.(syncCalls) = s.(syncCalls)).
Proof.
  intros after. unfold after. split.
  - intros [-> [Hs Hne]].
    rewrite (guarded_unchecked_run 0 data s Hs) by discriminate.
    rewrite (doSync_zero_catch_up data s Hne). unfold callSync.
    destruct (decoding_Sync theCatchUpCall (inner s)) as [[err|] w];
      [ reflexivity | ].
    rewrite invoke_lift_frame. reflexivity.
  - intros Hnot.
    destruct (Z.eq_dec lastBlockPersisted (-1)) as [-> | Hne].
    { unfold addSyncAndSanityCheck. simpl. rewrite invoke_lift_frame.
      reflexivity. }
    destruct (initialized s) eqn:Hs.
    { rewrite (guarded_checked_passthrough _ _ _ _ _ _ Hs). simpl.
      rewrite invoke_lift_frame. reflexivity. }
    rewrite (guarded_unchecked_run _ data s Hs Hne).
    assert (lastBlockPersisted <> 0 \/ data.(Height) = 1) as Hcase.
    { destruct (Z.eq_dec lastBlockPersisted 0) as [H0 | H0];
        [ | left; exact H0 ].
      destruct (Z.eq_dec (Height data) 1) as [H1 | H1];
        [ right; exact H1 | ].
      exfalso. apply Hnot. repeat split; assumption. }
    pose proof (doSync_without_call lastBlockPersisted data s Hcase) as Hsame.
    destruct (doSyncAndSanityCheck lastBlockPersisted data listener mgrOpts
                moduleFilter s) as [[err|] s1]; simpl in Hsame; subst s1.
    + reflexivity.
    + rewrite invoke_lift_frame. reflexivity.
Qed.

(** X9.  The guard stands in the way of block starts only: a key/value write
    and a commit go to the callback of the wrapped listener whatever the
    state of the guard is (unchecked, checked, or after a failed check), and
    leave that state as it is. *)
Theorem guard_passes_other_events (lastBlockPersisted : Z)
    (write : KVPairData) (s : GuardWorld) :
  invoke (guardedListener lastBlockPersisted).(OnKVPair) write s
    = (fst (invoke listener.(OnKVPair) write s.(inner)),
       {| initialized := s.(initialized);
          syncCalls := s.(syncCalls);
          inner := snd (invoke listener.(OnKVPair) write s.(inner)) |}) /\
  invoke (guardedListener lastBlockPersisted).(Commit) tt s
    = (fst (invoke listener.(Commit) tt s.(inner)),
       {| initialized := s.(initialized);
          syncCalls := s.(syncCalls);
          inner := snd (invoke listener.(Commit) tt s.(inner)) |}).
Proof.
  unfold addSyncAndSanityCheck.
  destruct (lastBlockPersisted =? -1); simpl;
    split; apply invoke_lift_frame.
Qed.

(** Block starts delivered to the lifted listener are those delivered to the
    listener itself; the guard's own state stays as it is. *)
Lemma deliver_lift (events : list StartBlockData) (s : GuardWorld) :
  deliverStartBlocks (liftListener listener) events s
  = (fst (deliverStartBlocks listener events s.(inner)),
     {| initialized := s.(initialized);
        syncCalls := s.(syncCalls);
        inner := snd (deliverStartBlocks listener events s.(inner)) |}).
Proof.
  revert s. induction events as [|data rest IH]; intros s; simpl.
  - destruct s; reflexivity.
  - rewrite invoke_lift_frame.
    destruct (invoke (StartBlock listener) data (inner s)) as [err w1]. simpl.
    rewrite IH. simpl.
    destruct (deliverStartBlocks listener rest w1) as [errs w2]. reflexivity.
Qed.

(** As long as the check fails without a sync, nothing moves. *)
Lemma deliver_refused (lastBlockPersisted : Z) (events : list StartBlockData)
    (s : GuardWorld) :
  lastBlockPersisted <> 0 -> lastBlockPersisted <> -1 ->
  Forall (fun data =>
            (int64 (lastBlockPersisted + 1) =? int64 data.(Height)) = false)
         events ->
  unchecked s ->
  deliverStartBlocks (guardedListener lastBlockPersisted) events s
  = (map (outOfSyncError lastBlockPersisted) events, s).
Proof.
  intros H0 Hm1 Hall Hs. induction Hall as [|data rest Hd Hrest IH]; simpl.
  - reflexivity.
  - rewrite (guarded_unchecked_run _ data s Hs Hm1).
    unfold doSyncAndSanityCheck.
    replace (lastBlockPersisted =? 0) with false
      by (symmetry; apply Z.eqb_neq; exact H0).
    rewrite Hd. simpl. rewrite IH. reflexivity.
Qed.

(** X10.  A target whose initializer reports a negative [lastBlockPersisted]
    other than -1 can never start: every block start of a height below
    [2^63] is refused with the out-of-sync error, however many arrive; none
    reaches the wrapped listener and no sync is made. *)
Theorem guard_negative_watermark_never_starts (lastBlockPersisted : Z)
    (events : list StartBlockData) (s : GuardWorld) :
  isInt64 lastBlockPersisted -> lastBlockPersisted <= -2 ->
  Forall (fun data => 0 <= data.(Height) < 2 ^ 63) events ->
  unchecked s ->
  deliverStartBlocks (guardedListener lastBlockPersisted) events s
  = (map (outOfSyncError lastBlockPersisted) events, s).
Proof.
  intros Hl Hneg Hall Hs.
  apply deliver_refused; try lia; [ | exact Hs ].
  revert Hall. apply Forall_impl. intros data Hd.
  apply Z.eqb_neq. unfold int64, isInt64 in *.
  change (2 ^ 63) with 9223372036854775808 in *.
  change (2 ^ 64) with 18446744073709551616 in *.
  Z.div_mod_to_equations. lia.
Qed.

(** X11.  A target that has persisted blocks stays shut until the expected
    height arrives: with [lastBlockPersisted >= 1], every block start of a
    height other than [lastBlockPersisted + 1] is refused with the
    out-of-sync error, however many arrive; none reaches the wrapped
    listener, no sync is made and the guard stays unchecked. *)
Theorem guard_refuses_until_expected_height (lastBlockPersisted : Z)
    (events : list StartBlockData) (s : GuardWorld) :
  isInt64 lastBlockPersisted -> 1 <= lastBlockPersisted ->
  Forall (fun data => isUint64 data.(Height) /\
                      data.(Height) <> lastBlockPersisted + 1) events ->
  unchecked s ->
  deliverStartBlocks (guardedListener lastBlockPersisted) events s
  = (map (outOfSyncError lastBlockPersisted) events, s).
Proof.
  intros Hl H1 Hall Hs.
  apply deliver_refused; try lia; [ | exact Hs ].
  revert Hall. apply Forall_impl. intros data [Hu Hne].
  rewrite (int64_next_height _ _ Hl H1 Hu). apply Z.eqb_neq.
  intros Heq. apply Hne. symmetry. exact Heq.
Qed.

(** X12.  A target that is in sync at its first block start (genesis, or the
    height that follows the persisted one) sees the stream of block starts
    exactly as the wrapped listener would: same errors, same effect behind
    the listener, no sync; later heights are not compared with anything. *)
Theorem guard_in_sync_stream (lastBlockPersisted : Z) (first : StartBlockData)
    (rest : list StartBlockData) (s : GuardWorld) :
  unchecked s ->
  (lastBlockPersisted = 0 /\ first.(Height) = 1) \/
  (1 <= lastBlockPersisted /\ lastBlockPersisted + 1 = first.(Height)) ->
  let direct := deliverStartBlocks listener (first :: rest) s.(inner) in
  deliverStartBlocks (guardedListener lastBlockPersisted) (first :: rest) s
  = (fst direct,
     {| initialized := true; syncCalls := s.(syncCalls); inner := snd direct |}).
Proof.
  intros Hs Hcase direct. unfold direct. simpl.
  assert (lastBlockPersisted <> -1) as Hm1
    by (destruct Hcase as [[-> _] | [H1 _]]; lia).
  assert (doSyncAndSanityCheck lastBlockPersisted first listener mgrOpts
            moduleFilter s = (None, s)) as Hcheck.
  { unfold doSyncAndSanityCheck.
    destruct Hcase as [[-> HH] | [H1 HH]].
    - simpl. rewrite HH. reflexivity.
    - replace (lastBlockPersisted =? 0) with false
        by (symmetry; apply Z.eqb_neq; lia).
      rewrite <- HH. rewrite Z.eqb_refl. reflexivity. }
  rewrite (guarded_unchecked_run _ first s Hs Hm1), Hcheck.
  rewrite invoke_lift_frame. simpl.
  destruct (invoke (StartBlock listener) first (inner s)) as [err w1]. simpl.
  rewrite deliver_checked_passthrough by reflexivity.
  rewrite deliver_lift. simpl.
  destruct (deliverStartBlocks listener rest w1) as [errs w2]. reflexivity.
Qed.

(** X13.  A failed catch-up sync is tried again: with nothing persisted, when
    [decoding.Sync] returns an error at the first block start, that error is
    returned, the guard stays unchecked, and the next block start (of a
    height other than 1) calls [decoding.Sync] once more, with the same
    arguments. *)
Theorem guard_retries_failed_sync (data1 data2 : StartBlockData)
    (s : GuardWorld) (err : string) :
  unchecked s -> data1.(Height) <> 1 -> data2.(Height) <> 1 ->
  fst (decoding_Sync theCatchUpCall s.(inner)) = Some err ->
  let first := invoke (guardedListener 0).(StartBlock) data1 s in
  let second := invoke (guardedListener 0).(StartBlock) data2 (snd first) in
  fst first = Some err /\
  unchecked (snd first) /\
  (snd first).(inner) = snd (decoding_Sync theCatchUpCall s.(inner)) /\
  (snd second).(syncCalls)
    = (s.(syncCalls) ++ [theCatchUpCall; theCatchUpCall])%list.
Proof.
  intros Hs H1 H2 Hfail first second.
  assert (first = (Some err,
                   {| initialized := false;
                      syncCalls := (s.(syncCalls) ++ [theCatchUpCall])%list;
                      inner := snd (decoding_Sync theCatchUpCall s.(inner)) |}))
    as Hfirst.
  { unfold first. rewrite (guarded_unchecked_run 0 data1 s Hs) by discriminate.
    rewrite (doSync_zero_catch_up data1 s H1). unfold callSync.
    destruct (decoding_Sync theCatchUpCall (inner s)) as [e w].
    simpl in Hfail. subst e. rewrite Hs. reflexivity. }
  unfold second. rewrite Hfirst. cbn [fst snd].
  split; [ reflexivity | ]. split; [ reflexivity | ].
  split; [ reflexivity | ].
  match goal with
  | |- context [invoke _ data2 ?s1] =>
      rewrite (guarded_unchecked_run 0 data2 s1 eq_refl) by discriminate;
      rewrite (doSync_zero_catch_up data2 s1 H2)
  end.
  unfold callSync. simpl.
  match goal with
  | |- context [decoding_Sync ?c ?w] =>
      destruct (decoding_Sync c w) as [[e|] w2]
  end.
  - simpl. rewrite <- app_assoc. reflexivity.
  - rewrite invoke_lift_frame. simpl. rewrite <- app_assoc. reflexivity.
Qed.

(** X17.  With something persisted (or a negative watermark), the sanity
    check compares [lastBlockPersisted + 1] with the height as 64-bit
    patterns: it returns nil exactly when the two differ by a multiple of
    [2^64], and the out-of-sync error otherwise; it never syncs and never
    changes the state.  So for a negative [lastBlockPersisted] the one height
    that passes is [2^64 + lastBlockPersisted + 1]. *)
Theorem sanity_check_compares_modulo_2_64 (lastBlockPersisted : Z)
    (data : StartBlockData) (s : GuardWorld) :
  lastBlockPersisted <> 0 ->
  doSyncAndSanityCheck lastBlockPersisted data listener mgrOpts moduleFilter s
  = (if (lastBlockPersisted + 1 - data.(Height)) mod 2 ^ 64 =? 0
     then None
     else outOfSyncError lastBlockPersisted data, s) /\
  (isInt64 lastBlockPersisted -> lastBlockPersisted <= -2 ->
   isUint64 data.(Height) ->
   (fst (doSyncAndSanityCheck lastBlockPersisted data listener mgrOpts
           moduleFilter s) = None <->
    data.(Height) = 2 ^ 64 + lastBlockPersisted + 1)).
Proof.
  intros H0.
  assert ((int64 (lastBlockPersisted + 1) =? int64 data.(Height))
          = ((lastBlockPersisted + 1 - data.(Height)) mod 2 ^ 64 =? 0))
    as Hcmp.
  { unfold int64.
    change (2 ^ 63) with 9223372036854775808.
    change (2 ^ 64) with 18446744073709551616.
    destruct (Z.eqb_spec
                ((lastBlockPersisted + 1 - Height data)
                   mod 18446744073709551616) 0) as [Hz | Hnz].
    - apply Z.eqb_eq. Z.div_mod_to_equations. lia.
    - apply Z.eqb_neq. Z.div_mod_to_equations. lia. }
  assert (doSyncAndSanityCheck lastBlockPersisted data listener mgrOpts
            moduleFilter s
          = (if (lastBlockPersisted + 1 - data.(Height)) mod 2 ^ 64 =? 0
             then None
             else outOfSyncError lastBlockPersisted data, s)) as Hcheck.
  { unfold doSyncAndSanityCheck.
    replace (lastBlockPersisted =? 0) with false
      by (symmetry; apply Z.eqb_neq; exact H0).
    rewrite Hcmp.
    destruct ((lastBlockPersisted + 1 - Height data) mod 2 ^ 64 =? 0);
      reflexivity. }
  split; [ exact Hcheck | ].
  intros Hl Hneg Hu. rewrite Hcheck. cbn [fst]. clear Hcheck Hcmp.
  unfold isInt64, isUint64 in *.
  change (2 ^ 63) with 9223372036854775808 in *.
  change (2 ^ 64) with 18446744073709551616 in *.
  destruct (Z.eqb_spec
              ((lastBlockPersisted + 1 - Height data)
                 mod 18446744073709551616) 0) as [Hz | Hnz].
  - split; [ intros _ | reflexivity ].
    Z.div_mod_to_equations. lia.
  - split; [ discriminate | ].
    intros Heq. exfalso. apply Hnz. rewrite Heq.
    replace (lastBlockPersisted + 1
             - (18446744073709551616 + lastBlockPersisted + 1))
      with (-1 * 18446744073709551616) by lia.
    apply Z.mod_mul. discriminate.
Qed.

End GuardFurtherProperties.

(** ** Further properties of the manager *)

Section ManagerFurtherProperties.
Import indexer.
Context {T : Types} {E : Externals}.
Variable opts : ManagerOptions.

(** The loop over a list of targets in two parts is the loop over the first
    part, then over the second from where the first ended. *)
Lemma startTargets_app (logger : logutil_Logger) (ctx : context_Context)
    (pre post : list (string * Config)) :
  forall (listeners : list (Listener GuardWorld))
         (filters : list ModuleFilterConfig) (w : World),
    startTargets opts logger ctx (pre ++ post) listeners filters w
    = match startTargets opts logger ctx pre listeners filters w with
      | (Panicked, w1) => (Panicked, w1)
      | (Returned (inl err), w1) => (Returned (inl err), w1)
      | (Returned (inr (listeners1, filters1)), w1) =>
          startTargets opts logger ctx post listeners1 filters1 w1
      end.
Proof.
  induction pre as [|[targetName targetCfg] pre IH];
    intros listeners filters w; simpl.
  - reflexivity.
  - destruct (startTarget opts logger ctx targetName targetCfg w)
      as [[[err | [l f]] | ] w1]; [ reflexivity | | reflexivity ].
    apply IH.
Qed.

(** The world in which the loop of [StartManager] starts: after the first
    log line. *)
Definition afterFirstLog (w : World) : World :=
  Logger_Info (managerLogger opts) "Starting indexer manager" [] w.

(** The loop reads no field of the options but [SyncSource] and [Resolver],
    which the guards hand to [decoding.Sync]. *)
Lemma startTargets_withConfig (cfg : ConfigValue) (logger : logutil_Logger)
    (ctx : context_Context) (targets : list (string * Config)) :
  forall (listeners : list (Listener GuardWorld))
         (filters : list ModuleFilterConfig) (w : World),
    startTargets (withConfig opts cfg) logger ctx targets listeners filters w
    = startTargets opts logger ctx targets listeners filters w.
Proof.
  induction targets as [|[targetName targetCfg] rest IH];
    intros listeners filters w; simpl.
  - reflexivity.
  - change (startTarget (withConfig opts cfg) logger ctx targetName targetCfg w)
      with (startTarget opts logger ctx targetName targetCfg w).
    destruct (startTarget opts logger ctx targetName targetCfg w)
      as [[[err | [l f]] | ] w1]; [ reflexivity | | reflexivity ].
    apply IH.
Qed.

(** X14.  A configuration given as a map is handled as its JSON encoding:
    when [json.Marshal] succeeds, [StartManager] does exactly what it does
    on the marshalled bytes given as a [json.RawMessage]. *)
Theorem StartManager_map_config_as_json (m : JSONObject) (jsonBz : string)
    (w : World) :
  opts.(Config_) = ConfigMap m -> json_Marshal m = (jsonBz, None) ->
  StartManager opts w
  = StartManager (withConfig opts (ConfigRawMessage jsonBz)) w.
Proof.
  intros Hcfg Hm. unfold StartManager.
  change (Logger (withConfig opts (ConfigRawMessage jsonBz)))
    with (Logger opts).
  change (Context_ (withConfig opts (ConfigRawMessage jsonBz)))
    with (Context_ opts).
  change (Config_ (withConfig opts (ConfigRawMessage jsonBz)))
    with (ConfigRawMessage jsonBz).
  rewrite Hcfg. unfold unmarshalConfig. rewrite Hm.
  destruct (json_Unmarshal jsonBz) as [res [err|]]; [ reflexivity | ].
  rewrite startTargets_withConfig. reflexivity.
Qed.

(** X15.  Startup stops at the first target that fails: when the loop fails
    on a first part of the targets, [StartManager] returns that error, the
    zero result and the world that part left, whatever targets follow; they
    are not looked up, logged or initialized. *)
Theorem StartManager_stops_at_first_failure (cfg : ManagerConfig)
    (pre post : list (string * Config)) (err : string) (w w' : World) :
  unmarshalConfig opts.(Config_) = res_with cfg None ->
  cfg.(Target) = (pre ++ post)%list ->
  startTargets opts (managerLogger opts) (managerContext opts) pre [] []
    (afterFirstLog w) = (Returned (inl err), w') ->
  StartManager opts w = (Returned (zeroManagerResult, Some err), w').
Proof.
  intros Hcfg Htargets Hpre. unfold StartManager.
  fold (managerLogger opts). fold (afterFirstLog w). rewrite Hcfg.
  fold (managerContext opts). rewrite Htargets, startTargets_app, Hpre.
  reflexivity.
Qed.

(** X16.  A target whose type is not in the registry, reached after targets
    that started, aborts the startup with the error
    [indexer type <q> not found]; the world is the one the earlier targets
    left (their initializers have run and are not undone), with no log line
    for the missing target. *)
Theorem StartManager_unknown_type_after_started (cfg : ManagerConfig)
    (pre post : list (string * Config)) (targetName : string)
    (targetCfg : Config) (listeners : list (Listener GuardWorld))
    (filters : list ModuleFilterConfig) (w w1 : World) :
  unmarshalConfig opts.(Config_) = res_with cfg None ->
  cfg.(Target) = (pre ++ (targetName, targetCfg) :: post)%list ->
  startTargets opts (managerLogger opts) (managerContext opts) pre [] []
    (afterFirstLog w) = (Returned (inr (listeners, filters)), w1) ->
  indexerRegistry targetCfg.(Type_) = None ->
  StartManager opts w
  = (Returned
       (zeroManagerResult,
        Some ("indexer type " ++ fmt_q targetCfg.(Type_)
              ++ " not found")%string),
     w1).
Proof.
  intros Hcfg Htargets Hpre Hmiss. unfold StartManager.
  fold (managerLogger opts). fold (afterFirstLog w). rewrite Hcfg.
  fold (managerContext opts). rewrite Htargets, startTargets_app, Hpre.
  simpl. unfold startTarget. rewrite Hmiss. reflexivity.
Qed.

End ManagerFurtherProperties.

(** ** The further properties on the journalling backend *)

Section FurtherOnTheJournal.
Import indexer demo.
#[local] Existing Instance demoTypes.
#[local] Existing Instance demoExternals.

(** Witness of X8: a target behind by one block gets no catch-up sync; a
    target that persisted nothing gets one. *)
Lemma guard_syncs_only_when_nothing_persisted_witness :
  ~ (5 = 0 /\ unchecked freshGuard /\ (block 7).(Height) <> 1) /\
  (0 = 0 /\ unchecked freshGuard /\ (block 7).(Height) <> 1) /\
  (snd (invoke (guarded 5).(StartBlock) (block 7) freshGuard)).(syncCalls)
    = [] /\
  (snd (invoke (guarded 0).(StartBlock) (block 7) freshGuard)).(syncCalls)
    = [catchUpCall journalListener demoOptions ["bank"]].
Proof.
  assert (~ (5 = 0 /\ unchecked freshGuard /\ (block 7).(Height) <> 1))
    as Hnot by (intros [H _]; discriminate H).
  assert (0 = 0 /\ unchecked freshGuard /\ (block 7).(Height) <> 1) as Hyes
    by (repeat split; discriminate).
  split; [ exact Hnot | ]. split; [ exact Hyes | ]. split.
  - exact (proj2 (@guard_syncs_only_when_nothing_persisted demoTypes
                    demoExternals journalListener demoOptions ["bank"] 5
                    (block 7) freshGuard) Hnot).
  - exact (proj1 (@guard_syncs_only_when_nothing_persisted demoTypes
                    demoExternals journalListener demoOptions ["bank"] 0
                    (block 7) freshGuard) Hyes).
Defined.

Lemma isInt64_minus_2 : isInt64 (-2).
Proof. unfold isInt64. split; [ discriminate | reflexivity ]. Qed.

Lemma small_height (h : Z) :
  (0 <=? h) && (h <? 2 ^ 63) = true -> 0 <= h < 2 ^ 63.
Proof.
  intros H. apply andb_true_iff in H. destruct H as [H0 H1].
  split; [ apply Z.leb_le; exact H0 | apply Z.ltb_lt; exact H1 ].
Qed.

Lemma uint64_height (h : Z) :
  (0 <=? h) && (h <? 2 ^ 64) = true -> isUint64 h.
Proof.
  intros H. apply andb_true_iff in H. destruct H as [H0 H1].
  split; [ apply Z.leb_le; exact H0 | apply Z.ltb_lt; exact H1 ].
Qed.

(** Witness of X10: a watermark of -2, blocks 1 and 2. *)
Lemma guard_negative_watermark_never_starts_witness :
  isInt64 (-2) /\ -2 <= -2 /\
  Forall (fun data => 0 <= data.(Height) < 2 ^ 63) [block 1; block 2] /\
  unchecked freshGuard /\
  deliverStartBlocks (guarded (-2)) [block 1; block 2] freshGuard
  = ([outOfSyncError (-2) (block 1); outOfSyncError (-2) (block 2)],
     freshGuard).
Proof.
  assert (-2 <= -2) as Hneg by discriminate.
  assert (Forall (fun data => 0 <= data.(Height) < 2 ^ 63)
            [block 1; block 2]) as Hall
    by (repeat constructor; apply small_height; reflexivity).
  assert (unchecked freshGuard) as Hs by reflexivity.
  split; [ exact isInt64_minus_2 | ]. split; [ exact Hneg | ].
  split; [ exact Hall | ]. split; [ exact Hs | ].
  exact (@guard_negative_watermark_never_starts demoTypes demoExternals
           journalListener demoOptions ["bank"] (-2) [block 1; block 2]
           freshGuard isInt64_minus_2 Hneg Hall Hs).
Defined.

(** Witness of X11: persisted height 5; blocks 7, 5 and 8 are refused. *)
Lemma guard_refuses_until_expected_height_witness :
  isInt64 5 /\ 1 <= 5 /\
  Forall (fun data => isUint64 data.(Height) /\ data.(Height) <> 5 + 1)
    [block 7; block 5; block 8] /\
  unchecked freshGuard /\
  deliverStartBlocks (guarded 5) [block 7; block 5; block 8] freshGuard
  = (map (outOfSyncError 5) [block 7; block 5; block 8], freshGuard).
Proof.
  assert (1 <= 5) as H1 by discriminate.
  assert (Forall (fun data => isUint64 data.(Height) /\
                              data.(Height) <> 5 + 1)
            [block 7; block 5; block 8]) as Hall
    by (repeat constructor; try (apply uint64_height; reflexivity);
        discriminate).
  assert (unchecked freshGuard) as Hs by reflexivity.
  split; [ exact isInt64_5 | ]. split; [ exact H1 | ].
  split; [ exact Hall | ]. split; [ exact Hs | ].
  exact (@guard_refuses_until_expected_height demoTypes demoExternals
           journalListener demoOptions ["bank"] 5 [block 7; block 5; block 8]
           freshGuard isInt64_5 H1 Hall Hs).
Defined.

(** Witness of X12: persisted height 5; block 6 opens the guard, and blocks
    9 and 2 that follow reach the journal unquestioned. *)
Lemma guard_in_sync_stream_witness :
  unchecked freshGuard /\
  (1 <= 5 /\ 5 + 1 = (block 6).(Height)) /\
  deliverStartBlocks (guarded 5) [block 6; block 9; block 2] freshGuard
  = ([None; None; None],
     {| initialized := true;
        syncCalls := [];
        inner := ["block 6"; "block 9"; "block 2"] |}).
Proof.
  assert (unchecked freshGuard) as Hs by reflexivity.
  assert (1 <= 5 /\ 5 + 1 = (block 6).(Height)) as Hcase
    by (split; [ discriminate | reflexivity ]).
  split; [ exact Hs | ]. split; [ exact Hcase | ].
  exact (@guard_in_sync_stream demoTypes demoExternals journalListener
           demoOptions ["bank"] 5 (block 6) [block 9; block 2] freshGuard Hs
           (or_intror Hcase)).
Defined.

(** Witness of X14: the map whose encoding is the document [bank.json]. *)
Lemma StartManager_map_config_as_json_witness :
  (optionsWith (ConfigMap "bank.json")).(Config_) = ConfigMap "bank.json" /\
  json_Marshal "bank.json" = ("bank.json", None) /\
  StartManager (optionsWith (ConfigMap "bank.json")) []
  = StartManager demoOptions [].
Proof.
  split; [ reflexivity | ]. split; [ reflexivity | ].
  exact (@StartManager_map_config_as_json demoTypes demoExternals
           (optionsWith (ConfigMap "bank.json")) "bank.json" "bank.json" []
           eq_refl eq_refl).
Defined.

(** Witness of X17: a watermark of -2 and the height [2^64 - 1]. *)
Lemma sanity_check_compares_modulo_2_64_witness :
  -2 <> 0 /\ isInt64 (-2) /\ -2 <= -2 /\ isUint64 (2 ^ 64 - 1) /\
  doSyncAndSanityCheck (-2) (block (2 ^ 64 - 1)) journalListener demoOptions
    ["bank"] freshGuard = (None, freshGuard) /\
  (fst (doSyncAndSanityCheck (-2) (block 7) journalListener demoOptions
          ["bank"] freshGuard) = None <-> 7 = 2 ^ 64 + -2 + 1).
Proof.
  assert (-2 <> 0) as H0 by discriminate.
  assert (-2 <= -2) as Hneg by discriminate.
  assert (isUint64 (2 ^ 64 - 1)) as Hbig
    by (apply uint64_height; reflexivity).
  assert (isUint64 (block 7).(Height)) as H7
    by (apply uint64_height; reflexivity).
  split; [ exact H0 | ]. split; [ exact isInt64_minus_2 | ].
  split; [ exact Hneg | ]. split; [ exact Hbig | ]. split.
  - exact (proj1 (@sanity_check_compares_modulo_2_64 demoTypes demoExternals
                    journalListener demoOptions ["bank"] (-2)
                    (block (2 ^ 64 - 1)) freshGuard H0)).
  - exact (proj2 (@sanity_check_compares_modulo_2_64 demoTypes demoExternals
                    journalListener demoOptions ["bank"] (-2) (block 7)
                    freshGuard H0) isInt64_minus_2 Hneg H7).
Defined.

End FurtherOnTheJournal.

(** ** The failure paths on the journalling backend *)

Section FailuresOnTheJournal.
Import indexer demo demo_failures.
#[local] Existing Instance demoTypes.
#[local] Existing Instance failingExternals.

(** Witness of X13: the sync source is unavailable at block 10 and is asked
    again at block 11. *)
Lemma guard_retries_failed_sync_witness :
  unchecked freshGuard /\ (block 10).(Height) <> 1 /\
  (block 11).(Height) <> 1 /\
  fst (decoding_Sync (catchUpCall journalListener demoOptions ["bank"])
         freshGuard.(inner)) = Some "sync source unavailable" /\
  fst (invoke (guardedOffline 0).(StartBlock) (block 10) freshGuard)
    = Some "sync source unavailable" /\
  (snd (invoke (guardedOffline 0).(StartBlock) (block 11)
          (snd (invoke (guardedOffline 0).(StartBlock) (block 10)
                  freshGuard)))).(syncCalls)
    = [catchUpCall journalListener demoOptions ["bank"];
       catchUpCall journalListener demoOptions ["bank"]].
Proof.
  assert (unchecked freshGuard) as Hs by reflexivity.
  assert ((block 10).(Height) <> 1) as H1 by discriminate.
  assert ((block 11).(Height) <> 1) as H2 by discriminate.
  assert (fst (decoding_Sync (catchUpCall journalListener demoOptions ["bank"])
                 freshGuard.(inner)) = Some "sync source unavailable")
    as Hfail by reflexivity.
  split; [ exact Hs | ]. split; [ exact H1 | ]. split; [ exact H2 | ].
  split; [ exact Hfail | ].
  destruct (@guard_retries_failed_sync demoTypes failingExternals
              journalListener demoOptions ["bank"] (block 10) (block 11)
              freshGuard "sync source unavailable" Hs H1 H2 Hfail)
    as [Hfirst [_ [_ Hcalls]]].
  split; [ exact Hfirst | exact Hcalls ].
Defined.

(** Witness of X15 and X16 share the configuration [ghostConfig]: a target
    that starts, one of an unregistered type, and one never reached. *)
Lemma StartManager_stops_at_first_failure_witness :
  unmarshalConfig demoOptions.(Config_) = res_with ghostConfig None /\
  ghostConfig.(Target)
    = ([("bank-only", bankTarget); ("ghost", ghostTarget)]
       ++ [("never", bankTarget)])%list /\
  StartManager demoOptions []
  = (Returned (zeroManagerResult, Some "indexer type ghost not found"),
     ["Starting indexer manager"; "Starting indexer"; "init journal"]).
Proof.
  split; [ reflexivity | ]. split; [ reflexivity | ].
  exact (@StartManager_stops_at_first_failure demoTypes failingExternals
           demoOptions ghostConfig
           [("bank-only", bankTarget); ("ghost", ghostTarget)]
           [("never", bankTarget)] "indexer type ghost not found" []
           ["Starting indexer manager"; "Starting indexer"; "init journal"]
           eq_refl eq_refl eq_refl).
Defined.

Lemma StartManager_unknown_type_after_started_witness :
  unmarshalConfig demoOptions.(Config_) = res_with ghostConfig None /\
  indexerRegistry ghostTarget.(Type_) = None /\
  StartManager demoOptions []
  = (Returned (zeroManagerResult, Some "indexer type ghost not found"),
     ["Starting indexer manager"; "Starting indexer"; "init journal"]).
Proof.
  split; [ reflexivity | ]. split; [ reflexivity | ].
  exact (@StartManager_unknown_type_after_started demoTypes failingExternals
           demoOptions ghostConfig [("bank-only", bankTarget)]
           [("never", bankTarget)] "ghost" ghostTarget
           [addSyncAndSanityCheck 0 (applyModuleFilter ["bank"] journalListener)
              demoOptions ["bank"]]
           [["bank"]] []
           ["Starting indexer manager"; "Starting indexer"; "init journal"]
           eq_refl eq_refl eq_refl eq_refl).
Defined.

End FailuresOnTheJournal.
